(** * b7s: execution orchestration core

    A shallow embedding of the head node's execution path
    ([node/head/execute.go]), of the worker's consensus-cluster lifecycle
    ([node/worker], and its predecessor in package [node]) and of the helper
    functions of package [node], followed by the properties the
    specification states about them.

    Go values are modelled as follows:
    - [string] is Rocq's [string] (a sequence of bytes);
    - [float64] is the primitive binary64 float of Rocq, whose operations
      are the IEEE 754 ones Go uses;
    - [map[K]V] is stdpp's [gmap]; a nil map and an empty map are both [∅]
      (Go reads them alike);
    - [error] is the tree of sentinel values and [%w] wrappers, and a nil
      error is [None];
    - calls into collaborators that are not part of the core (transport,
      consensus libraries, roll call) are passed in as functions giving the
      outcome of the call. *)

From Stdlib Require Import ZArith Floats Uint63 Ascii String Bool Lia.
From stdpp Require Import gmap strings list fin_maps.

Open Scope string_scope.

(** ** Package [models/codes] *)

Module codes.

(** Modelled from the spec: the declarations of package [models/codes] are
    missing; section 3 of the specification gives the closed enum of result
    codes. *)
Inductive Code : Set :=
| OK
| Error
| Invalid
| Timeout
| NoContent
| PartialContent.

#[global] Instance Code_eq_dec : EqDecision Code.
Proof. solve_decision. Defined.

Definition eqb (a b : Code) : bool := bool_decide (a = b).

End codes.

(** ** Package [consensus] *)

Module consensus.

(** [consensus.Type] is an unsigned integer whose zero value means that no
    consensus is used; [Raft] and [PBFT] are its two named constants. *)
Inductive Type_ : Set :=
| NoConsensus
| Raft
| PBFT.

#[global] Instance Type_eq_dec : EqDecision Type_.
Proof. solve_decision. Defined.

End consensus.

(** ** Go errors *)

Module errors.

(** The two sentinel errors of package [models/blockless] that the head
    tests for. *)
Inductive Sentinel : Set :=
| RollCallTimeout
| ExecutionNotEnoughNodes.

(** An error value: a sentinel, an error made by [errors.New] (or any other
    leaf error of a collaborator), or [fmt.Errorf(prefix + "%w", wrapped)]. *)
Inductive error : Set :=
| Err (s : Sentinel)
| New (msg : string)
| Errorf (prefix : string) (wrapped : error).

Definition ErrRollCallTimeout : error := Err RollCallTimeout.
Definition ErrExecutionNotEnoughNodes : error := Err ExecutionNotEnoughNodes.

#[global] Instance Sentinel_eq_dec : EqDecision Sentinel.
Proof. solve_decision. Defined.

(** [errors.Is(err, target)] for a sentinel target: the target is looked for
    along the chain of wrapped errors. *)
Fixpoint IsSentinel (err : error) (target : Sentinel) : bool :=
  match err with
  | Err s => bool_decide (s = target)
  | New _ => false
  | Errorf _ wrapped => IsSentinel wrapped target
  end.

(** [errors.Is] on a possibly nil error. *)
Definition Is (err : option error) (target : Sentinel) : bool :=
  match err with
  | None => false
  | Some e => IsSentinel e target
  end.

(** [err.Error()]. The texts of the sentinels are constants of package
    [models/blockless]; they are a parameter here. *)
Fixpoint Error (text : Sentinel → string) (err : error) : string :=
  match err with
  | Err s => text s
  | New msg => msg
  | Errorf prefix wrapped => prefix +:+ Error text wrapped
  end.

End errors.

(** ** Package [strings] *)

Module strings.

Definition lower_ascii (c : ascii) : ascii :=
  let n := nat_of_ascii c in
  if (65 <=? n)%nat && (n <=? 90)%nat then ascii_of_nat (n + 32) else c.

(** [strings.ToLower] on the bytes of a string: the letters [A]-[Z] are
    mapped to [a]-[z]. Bytes outside ASCII are kept; Go maps the runes they
    encode through the Unicode tables, which never yields one of the ASCII
    letters the callers below compare with. *)
Fixpoint ToLower (s : string) : string :=
  match s with
  | EmptyString => EmptyString
  | String c s' => String (lower_ascii c) (ToLower s')
  end.

End strings.

(** ** [float64] *)

Module float64.

(** [float64(n)] for an [int] that holds a length: [0 <= n < 2^63]. *)
Definition of_int (n : Z) : float := PrimFloat.of_uint63 (Uint63.of_Z n).

End float64.

(** ** Package [models/execute] *)

Module execute.

(** A peer identity ([peer.ID] is a Go string type). *)
Definition PeerID : Set := string.

(** [execute.Config]: the fields the core reads. *)
Record Config : Set := mkConfig {
  NodeCount : Z;
  ConsensusAlgorithm : string;
  Threshold : float
}.

Record Request : Set := mkRequest {
  FunctionID : string;
  Config_ : Config
}.

(** [execute.Result]: the code and the output of one run. *)
Record Result : Set := mkResult {
  Code : codes.Code;
  Stdout : string;
  Stderr : string;
  ExitCode : Z
}.

(** [execute.NodeResult] embeds a [Result] and adds metadata. *)
Record NodeResult : Set := mkNodeResult {
  Result_ : Result;
  Metadata : string
}.

Definition NodeResult_Code (r : NodeResult) : codes.Code := Code (Result_ r).

(** [execute.ResultMap] is [map[peer.ID]NodeResult]. *)
Abbreviation ResultMap := (gmap string NodeResult).

Record Cluster : Set := mkCluster {
  Peers : list PeerID
}.

End execute.

(** ** Package [node/internal/waitmap] *)

Module waitmap.

(** Modelled from the spec: the code of package [node/internal/waitmap] is
    missing. Section 4.1 of the specification describes it as a keyed
    rendezvous in which [Set] publishes a value under a key, the last
    write winning for later readers. [writes] is the log of the keys handed
    to [Set], oldest first; eviction of old entries is left out. *)
Record WaitMap (V : Type) : Type := mkWaitMap {
  entries : gmap string V;
  writes : list string
}.

Arguments mkWaitMap {V} _ _.
Arguments entries {V} _.
Arguments writes {V} _.

Definition New {V : Type} : WaitMap V := mkWaitMap ∅ [].

Definition Set_ {V : Type} (k : string) (v : V) (wm : WaitMap V) : WaitMap V :=
  mkWaitMap (<[k := v]> (entries wm)) (writes wm ++ [k]).

Definition Get {V : Type} (k : string) (wm : WaitMap V) : option V :=
  entries wm !! k.

(** [WaitFor(ctx, k)] seen from its caller when it returns: the value, if one
    was set before the deadline of [ctx]. *)
Definition WaitFor {V : Type} (k : string) (wm : WaitMap V) : option V :=
  entries wm !! k.

End waitmap.

(** ** Package [node/internal/syncmap] *)

Module syncmap.

(** The operations of [syncmap.Map[string, V]] that the worker calls. The
    code of the package is missing, so the registry is an interface here,
    with the two readings of [Set] below as instances. *)
Class Map (M V : Type) : Type := mkMap {
  New : M;
  Get : M → string → option V;
  Set_ : M → string → V → M;
  Delete : M → string → M
}.

(** [Set] as a Go map assignment [m[key] = value], the way package [node]
    writes its own registry. *)
Definition overwriting (V : Type) : Map (gmap string V) V :=
  mkMap (gmap string V) V ∅ (λ m k, m !! k) (λ m k v, <[k := v]> m) (λ m k, delete k m).

(** Modelled from the spec: section 4.3 of the specification says of the
    cluster registry that [Set] is rejected if the key already exists. *)
Definition rejecting (V : Type) : Map (gmap string V) V :=
  mkMap (gmap string V) V ∅ (λ m k, m !! k)
    (λ m k v, match m !! k with Some _ => m | None => <[k := v]> m end)
    (λ m k, delete k m).

End syncmap.

(** ** Packages [models/request] and [models/response] *)

Module response.

(** [response.Execute], the message the head sends back to the client. *)
Record Execute : Type := mkExecute {
  Execute_Code : codes.Code;
  Execute_RequestID : string;
  Execute_Results : execute.ResultMap;
  Execute_Cluster : execute.Cluster;
  Execute_ErrorMessage : string
}.

(** [response.WorkOrder], the message a worker sends to the head with its
    result. *)
Record WorkOrder : Set := mkWorkOrder {
  WorkOrder_Code : codes.Code;
  WorkOrder_RequestID : string;
  WorkOrder_Result : execute.NodeResult
}.

(** [response.FormCluster], the reply of a worker to a cluster formation
    request. *)
Record FormCluster : Set := mkFormCluster {
  FormCluster_RequestID : string;
  FormCluster_Code : codes.Code;
  FormCluster_Consensus : consensus.Type_
}.

Definition WithResults (res : Execute) (r : execute.ResultMap) : Execute :=
  mkExecute (Execute_Code res) (Execute_RequestID res) r (Execute_Cluster res)
    (Execute_ErrorMessage res).

Definition WithCluster (res : Execute) (c : execute.Cluster) : Execute :=
  mkExecute (Execute_Code res) (Execute_RequestID res) (Execute_Results res) c
    (Execute_ErrorMessage res).

Definition SetErrorMessage (res : Execute) (msg : string) : Execute :=
  mkExecute (Execute_Code res) (Execute_RequestID res) (Execute_Results res)
    (Execute_Cluster res) msg.

End response.

Module request.

(** [request.Execute], the message of a client asking for an execution. *)
Record Execute : Set := mkExecute {
  Execute_Request : execute.Request;
  Execute_Topic : string
}.

(** [request.WorkOrder]; the time stamp is left out, and of the signature
    only its presence is kept. *)
Record WorkOrder : Set := mkWorkOrder {
  WorkOrder_Request : execute.Request;
  WorkOrder_RequestID : string;
  WorkOrder_Signed : bool
}.

(** [request.FormCluster]. *)
Record FormCluster : Set := mkFormCluster {
  FormCluster_RequestID : string;
  FormCluster_Peers : list execute.PeerID;
  FormCluster_Consensus : consensus.Type_
}.

(** Modelled from the spec: [request.Execute.Response] belongs to package
    [models/request], whose code is missing. It starts the
    [ExecuteResponse] of section 6.1 from a code and a request
    identifier; results, cluster and error message are filled in by the
    caller. *)
Definition Execute_Response (req : Execute) (c : codes.Code) (id : string) : response.Execute :=
  response.mkExecute c id ∅ (execute.mkCluster []) "".

(** [fc.Response(code).WithConsensus(c)]. *)
Definition FormCluster_Response (fc : FormCluster) (c : codes.Code) : response.FormCluster :=
  response.mkFormCluster (FormCluster_RequestID fc) c (FormCluster_Consensus fc).

End request.

(** ** A consensus replica handle *)

Module replica.

(** A value behind the interface [consensusExecutor], described by what its
    methods return: [Consensus()] and the outcome of [Shutdown()]. [ident]
    tells two replicas apart. *)
Record consensusExecutor : Set := mkReplica {
  ident : nat;
  Consensus : consensus.Type_;
  Shutdown : option errors.error
}.

(** [raft.FSMLogEntry]: the committed request handed to the callbacks. *)
Record FSMLogEntry : Set := mkFSMLogEntry {
  RequestID : string;
  Origin : execute.PeerID;
  Execute : execute.Request
}.

End replica.

(** ** Package [node]: the helper functions and the cluster code it had
       before the split into [head] and [worker] *)

Module node.

Import errors replica.

Section Node.

(** The order in which one [range] loop enumerates a Go map. *)
Variable mapRange : ∀ V : Type, gmap string V → list (string * V).

(** [peer.ID.String()], from libp2p. *)
Variable peer_String : execute.PeerID → string.

Definition executionResultKey (requestID : string) (peer : execute.PeerID) : string :=
  requestID +:+ "/" +:+ peer_String peer.

(** The [range] loop over a map of one entry returns [results[peer].Code]
    for the key [peer] it enumerates, which is the code of the value
    enumerated with it. *)
Definition determineOverallCode (results : gmap string execute.Result) : codes.Code :=
  if (size results =? 0)%nat then codes.NoContent
  else
    match (if (size results =? 1)%nat then mapRange _ results else []) with
    | (_, res) :: _ => execute.Code res
    | [] =>
        if existsb (λ kv, codes.eqb (execute.Code (snd kv)) codes.OK) (mapRange _ results)
        then codes.OK
        else codes.Error
    end.

Definition parseConsensusAlgorithm (value : string) : consensus.Type_ * option error :=
  if String.eqb value "" then (consensus.NoConsensus, None)
  else
    let lv := strings.ToLower value in
    if String.eqb lv "raft" then (consensus.Raft, None)
    else if String.eqb lv "pbft" then (consensus.PBFT, None)
    else (consensus.NoConsensus, Some (New ("unknown consensus value (" +:+ value +:+ ")"))).

(** The fields of [Node] the cluster code touches. [sent] logs the messages
    handed to [Send], oldest first. *)
Record Node : Type := mkNode {
  clusters : gmap string consensusExecutor;
  executeResponses : waitmap.WaitMap execute.ResultMap;
  sent : list (execute.PeerID * response.FormCluster)
}.

(** The outcome of the calls that leave the node. *)
Record Env : Type := mkEnv {
  raft_New : request.FormCluster → consensusExecutor + error;
  pbft_NewReplica : request.FormCluster → consensusExecutor + error;
  Send : execute.PeerID → response.FormCluster → option error
}.

Definition processExecuteResponse (n : Node) (from : execute.PeerID)
    (requestID : string) (results : execute.ResultMap) : Node * option error :=
  let key := executionResultKey requestID from in
  (mkNode (clusters n) (waitmap.Set_ key results (executeResponses n)) (sent n), None).

Definition createRaftCluster (env : Env) (w : Node) (from : execute.PeerID)
    (fc : request.FormCluster) : Node * option error :=
  match raft_New env fc with
  | inr err => (w, Some (Errorf "could not create raft node: " err))
  | inl rh =>
      let clusters' := <[request.FormCluster_RequestID fc := rh]> (clusters w) in
      let msg := request.FormCluster_Response fc codes.OK in
      let w' := mkNode clusters' (executeResponses w) (sent w ++ [(from, msg)]) in
      match Send env from msg with
      | Some err => (w', Some (Errorf "could not send cluster confirmation message: " err))
      | None => (w', None)
      end
  end.

Definition createPBFTCluster (env : Env) (w : Node) (from : execute.PeerID)
    (fc : request.FormCluster) : Node * option error :=
  match pbft_NewReplica env fc with
  | inr err => (w, Some (Errorf "could not create PBFT node: " err))
  | inl ph =>
      let clusters' := <[request.FormCluster_RequestID fc := ph]> (clusters w) in
      let msg := request.FormCluster_Response fc codes.OK in
      let w' := mkNode clusters' (executeResponses w) (sent w ++ [(from, msg)]) in
      match Send env from msg with
      | Some err => (w', Some (Errorf "could not send cluster confirmation message: " err))
      | None => (w', None)
      end
  end.

(** The timed wait on the result only feeds a log line ([executed_work]). *)
Definition leaveCluster (w : Node) (requestID : string) : Node * option error :=
  match clusters w !! requestID with
  | None => (w, Some (New "no cluster with that ID"))
  | Some cluster =>
      let executed_work := waitmap.WaitFor requestID (executeResponses w) in
      match Shutdown cluster with
      | Some err =>
          (w, Some (Errorf ("could not leave cluster (request: " +:+ requestID +:+ "): ") err))
      | None =>
          (mkNode (delete requestID (clusters w)) (executeResponses w) (sent w), None)
      end
  end.

End Node.

End node.

(** ** Package [node/head] *)

Module head.

Import errors.

(** [head.Config]: of its fields the execution path reads the default
    consensus; the timeouts bound the waits of the collaborators. *)
Record Config : Set := mkConfig {
  DefaultConsensus : consensus.Type_
}.

(** The fields of [HeadNode] the execution path touches. *)
Record HeadNode : Type := mkHeadNode {
  cfg : Config;
  executeResponses : waitmap.WaitMap execute.NodeResult
}.

(** The outcome of the calls [execute] and [processExecute] make into the
    rest of the head node and into the transport. *)
Record Env : Type := mkEnv {
  Valid : request.Execute → option error;
  executeRollCall :
    string → string → Z → consensus.Type_ → string → list execute.PeerID * option error;
  formCluster : string → list execute.PeerID → consensus.Type_ → option error;
  Sign : execute.Request → option error;
  SendToMany : list execute.PeerID → request.WorkOrder → bool → option error;
  gatherExecutionResultsPBFT : string → list execute.PeerID → execute.ResultMap;
  gatherExecutionResults : string → list execute.PeerID → execute.ResultMap;
  Send : execute.PeerID → response.Execute → option error
}.

(** What [execute] returns, and the disband message its deferred call sends
    on the way out, if one was arranged. *)
Record Return : Type := mkReturn {
  ret_code : codes.Code;
  ret_results : execute.ResultMap;
  ret_cluster : execute.Cluster;
  ret_err : option error;
  ret_disband : option (string * list execute.PeerID)
}.

Section Head.

(** The constant [defaultExecutionThreshold] of the package. *)
Variable defaultExecutionThreshold : float.

(** [consensus.Parse]. *)
Variable consensus_Parse : string → consensus.Type_ * option error.

(** The order in which one [range] loop enumerates a Go map. *)
Variable mapRange : ∀ V : Type, gmap string V → list (string * V).

(** [peer.ID.String()], from libp2p. *)
Variable peer_String : execute.PeerID → string.

(** The texts of the sentinel errors. *)
Variable text : Sentinel → string.

Definition consensusRequired (c : consensus.Type_) : bool :=
  negb (bool_decide (c = consensus.NoConsensus)).

Definition determineThreshold (req : execute.Request) : float :=
  let t := execute.Threshold (execute.Config_ req) in
  if (0 <? t)%float && (t <=? 1)%float then t else defaultExecutionThreshold.

Definition executionResultKey (requestID : string) (peer : execute.PeerID) : string :=
  requestID +:+ "/" +:+ peer_String peer.

Definition execute (h : HeadNode) (env : Env) (requestID : string)
    (req : execute.Request) (subgroup : string) : Return :=
  let nodeCount :=
    if (1 <=? execute.NodeCount (execute.Config_ req))%Z
    then execute.NodeCount (execute.Config_ req)
    else (-1)%Z in
  let consensusAlgo :=
    match consensus_Parse (execute.ConsensusAlgorithm (execute.Config_ req)) with
    | (_, Some _) => DefaultConsensus (cfg h)
    | (c, None) => c
    end in
  (* Phase 1: roll call. *)
  match executeRollCall env requestID (execute.FunctionID req) nodeCount consensusAlgo subgroup with
  | (_, Some err) =>
      let code := if IsSentinel err RollCallTimeout then codes.Timeout else codes.Error in
      mkReturn code ∅ (execute.mkCluster [])
        (Some (Errorf ("could not roll call peers (request: " +:+ requestID +:+ "): ") err))
        None
  | (reportingPeers, None) =>
      let cluster := execute.mkCluster reportingPeers in
      (* Phase 2: cluster formation, if consensus is needed. *)
      match (if consensusRequired consensusAlgo
             then formCluster env requestID reportingPeers consensusAlgo
             else None) with
      | Some err =>
          mkReturn codes.Error ∅ (execute.mkCluster [])
            (Some (Errorf ("could not form cluster (request: " +:+ requestID +:+ "): ") err))
            None
      | None =>
          let disband :=
            if consensusRequired consensusAlgo then Some (requestID, reportingPeers) else None in
          (* Phase 3: the work order, signed for PBFT. *)
          let isPBFT := bool_decide (consensusAlgo = consensus.PBFT) in
          match (if isPBFT then Sign env req else None) with
          | Some err =>
              mkReturn codes.Error ∅ cluster
                (Some (Errorf ("could not sign execution request (function: "
                                 +:+ execute.FunctionID req +:+ ", request: " +:+ requestID +:+ "): ") err))
                disband
          | None =>
              let reqExecute := request.mkWorkOrder req requestID isPBFT in
              match SendToMany env reportingPeers reqExecute (consensusRequired consensusAlgo) with
              | Some err =>
                  mkReturn codes.Error ∅ cluster
                    (Some (Errorf ("could not send execution request to peers (function: "
                                     +:+ execute.FunctionID req +:+ ", request: " +:+ requestID +:+ "): ") err))
                    disband
              | None =>
                  if isPBFT then
                    let results := gatherExecutionResultsPBFT env requestID reportingPeers in
                    let retcode :=
                      match mapRange _ results with
                      | (_, res) :: _ => execute.NodeResult_Code res
                      | [] => codes.OK
                      end in
                    mkReturn retcode results cluster None disband
                  else
                    let results := gatherExecutionResults env requestID reportingPeers in
                    let respondRatio :=
                      (float64.of_int (Z.of_nat (size results))
                       / float64.of_int (Z.of_nat (length reportingPeers)))%float in
                    let threshold := determineThreshold req in
                    let retcode :=
                      if (respondRatio =? 0)%float then codes.NoContent
                      else if (respondRatio <? threshold)%float then codes.PartialContent
                      else codes.OK in
                    mkReturn retcode results cluster None disband
              end
          end
      end
  end.

(** The node count and the consensus algorithm [execute] works with: the
    values of its local variables [nodeCount] and [consensusAlgo]. *)
Definition nodeCountOf (req : execute.Request) : Z :=
  if (1 <=? execute.NodeCount (execute.Config_ req))%Z
  then execute.NodeCount (execute.Config_ req)
  else (-1)%Z.

Definition consensusOf (h : HeadNode) (req : execute.Request) : consensus.Type_ :=
  match consensus_Parse (execute.ConsensusAlgorithm (execute.Config_ req)) with
  | (_, Some _) => DefaultConsensus (cfg h)
  | (c, None) => c
  end.

(** [dispatched h env requestID req subgroup peers]: the first three phases
    of [execute] go through. The roll call selects [peers], the cluster is
    formed if consensus is needed, the request is signed if the algorithm is
    PBFT, and the work order is sent. *)
Definition dispatched (h : HeadNode) (env : Env) (requestID : string)
    (req : execute.Request) (subgroup : string) (peers : list execute.PeerID) : Prop :=
  let algo := consensusOf h req in
  executeRollCall env requestID (execute.FunctionID req) (nodeCountOf req) algo subgroup
    = (peers, None)
  ∧ (consensusRequired algo = true → formCluster env requestID peers algo = None)
  ∧ (algo = consensus.PBFT → Sign env req = None)
  ∧ SendToMany env peers
      (request.mkWorkOrder req requestID (bool_decide (algo = consensus.PBFT)))
      (consensusRequired algo) = None.

(** The response ratio [execute] computes from the number of results and
    the number of selected peers. *)
Definition respondRatio (results peers : nat) : float :=
  (float64.of_int (Z.of_nat results) / float64.of_int (Z.of_nat peers))%float.

(** [requestID] is the identifier [newRequestID()] mints for this request.
    The result is the response handed to [Send] and the error returned. *)
Definition processExecute (h : HeadNode) (env : Env) (from : execute.PeerID)
    (req : request.Execute) (requestID : string) : response.Execute * option error :=
  match Valid env req with
  | Some err =>
      let res :=
        response.SetErrorMessage (request.Execute_Response req codes.Invalid "") (Error text err) in
      match Send env from res with
      | Some e => (res, Some (Errorf "could not send response: " e))
      | None => (res, None)
      end
  | None =>
      let r := execute h env requestID (request.Execute_Request req) (request.Execute_Topic req) in
      let res :=
        response.WithCluster
          (response.WithResults (request.Execute_Response req (ret_code r) requestID) (ret_results r))
          (ret_cluster r) in
      let res :=
        match ret_err r with
        | Some err =>
            if Is (ret_err r) RollCallTimeout || Is (ret_err r) ExecutionNotEnoughNodes
            then response.SetErrorMessage res (Error text err)
            else res
        | None => res
        end in
      match Send env from res with
      | Some e => (res, Some (Errorf "could not send response: " e))
      | None => (res, None)
      end
  end.

Definition processWorkOrderResponse (h : HeadNode) (from : execute.PeerID)
    (res : response.WorkOrder) : HeadNode * option error :=
  let key := executionResultKey (response.WorkOrder_RequestID res) from in
  (mkHeadNode (cfg h) (waitmap.Set_ key (response.WorkOrder_Result res) (executeResponses h)),
   None).

End Head.

End head.

(** ** Package [node/worker] *)

Module worker.

Import errors replica.

Section Worker.

(** The registry type behind [syncmap.Map[string, consensusExecutor]]. *)
Context {M : Type} {registry : syncmap.Map M consensusExecutor}.

(** The fields of [Worker] the cluster code touches. [sent] logs the
    messages handed to [Send], oldest first. *)
Record Worker : Type := mkWorker {
  clusters : M;
  executeResponses : waitmap.WaitMap execute.NodeResult;
  sent : list (execute.PeerID * response.FormCluster)
}.

(** The outcome of the calls that leave the worker. *)
Record Env : Type := mkEnv {
  raft_New : request.FormCluster → consensusExecutor + error;
  pbft_NewReplica : request.FormCluster → consensusExecutor + error;
  Send : execute.PeerID → response.FormCluster → option error
}.

(** The callback [cacheFn] that [createRaftCluster] gives to the replica. *)
Definition createRaftCluster_cacheFn (w : Worker) (req : FSMLogEntry)
    (res : execute.NodeResult) : Worker :=
  mkWorker (clusters w) (waitmap.Set_ (RequestID req) res (executeResponses w)) (sent w).

(** The callback [cacheFn] that [createPBFTCluster] gives to the replica. *)
Definition createPBFTCluster_cacheFn (fc : request.FormCluster) (w : Worker)
    (requestID : string) (origin : execute.PeerID) (req : execute.Request)
    (res : execute.NodeResult) : Worker :=
  mkWorker (clusters w)
    (waitmap.Set_ (request.FormCluster_RequestID fc) res (executeResponses w)) (sent w).

Definition createRaftCluster (env : Env) (w : Worker) (from : execute.PeerID)
    (fc : request.FormCluster) : Worker * option error :=
  match raft_New env fc with
  | inr err => (w, Some (Errorf "could not create raft node: " err))
  | inl rh =>
      let clusters' := syncmap.Set_ (clusters w) (request.FormCluster_RequestID fc) rh in
      let msg := request.FormCluster_Response fc codes.OK in
      let w' := mkWorker clusters' (executeResponses w) (sent w ++ [(from, msg)]) in
      match Send env from msg with
      | Some err => (w', Some (Errorf "could not send cluster confirmation message: " err))
      | None => (w', None)
      end
  end.

Definition createPBFTCluster (env : Env) (w : Worker) (from : execute.PeerID)
    (fc : request.FormCluster) : Worker * option error :=
  match pbft_NewReplica env fc with
  | inr err => (w, Some (Errorf "could not create PBFT node: " err))
  | inl ph =>
      let clusters' := syncmap.Set_ (clusters w) (request.FormCluster_RequestID fc) ph in
      let msg := request.FormCluster_Response fc codes.OK in
      let w' := mkWorker clusters' (executeResponses w) (sent w ++ [(from, msg)]) in
      match Send env from msg with
      | Some err => (w', Some (Errorf "could not send cluster confirmation message: " err))
      | None => (w', None)
      end
  end.

(** The timed wait on the result only feeds a log line ([executed_work]). *)
Definition leaveCluster (w : Worker) (requestID : string) : Worker * option error :=
  match syncmap.Get (clusters w) requestID with
  | None => (w, Some (New "no cluster with that ID"))
  | Some cluster =>
      let executed_work := waitmap.WaitFor requestID (executeResponses w) in
      match Shutdown cluster with
      | Some err =>
          (w, Some (Errorf ("could not leave cluster (request: " +:+ requestID +:+ "): ") err))
      | None =>
          (mkWorker (syncmap.Delete (clusters w) requestID) (executeResponses w) (sent w), None)
      end
  end.

End Worker.

Arguments Worker M : clear implicits.


End worker.

(** ** Concrete collaborators

    Values the model is run on in the examples below. *)

Module sample.

Import errors replica.

(** A [range] that enumerates a map in the order of [map_to_list]. *)
Definition mapRange (V : Type) (m : gmap string V) : list (string * V) := map_to_list m.

(** A printer of peer identities that prints the identity as it is. *)
Definition peer_String (p : execute.PeerID) : string := p.

Definition text (s : Sentinel) : string :=
  match s with
  | RollCallTimeout => "roll call timed out"
  | ExecutionNotEnoughNodes => "not enough execution nodes"
  end.

(** The default threshold the specification gives as its example. *)
Definition defaultExecutionThreshold : float := 0.5%float.

(** A request for function [fn] with no node count. *)
Definition request (algo : string) (threshold : float) : execute.Request :=
  execute.mkRequest "fn" (execute.mkConfig 0 algo threshold).

(** A result without output that carries the code [c]. *)
Definition result (c : codes.Code) : execute.NodeResult :=
  execute.mkNodeResult (execute.mkResult c "" "" 0) "".

Definition headNode (default : consensus.Type_) : head.HeadNode :=
  head.mkHeadNode (head.mkConfig default) waitmap.New.

(** Collaborators that all succeed: the roll call selects [peers], and the
    results [results] arrive before the deadline. *)
Definition env (peers : list execute.PeerID) (results : execute.ResultMap) : head.Env :=
  head.mkEnv (λ _, None) (λ _ _ _ _ _, (peers, None)) (λ _ _ _, None) (λ _, None)
    (λ _ _ _, None) (λ _ _, results) (λ _ _, results) (λ _ _, None).

(** Collaborators whose roll call fails with [err]. *)
Definition env_rollcall (err : error) : head.Env :=
  head.mkEnv (λ _, None) (λ _ _ _ _ _, ([], Some err)) (λ _ _ _, None) (λ _, None)
    (λ _ _ _, None) (λ _ _, ∅) (λ _ _, ∅) (λ _ _, None).

(** A replica whose [Shutdown] succeeds, and one whose [Shutdown] fails. *)
Definition replica_ok (i : nat) : consensusExecutor := mkReplica i consensus.Raft None.

Definition replica_stuck (i : nat) : consensusExecutor :=
  mkReplica i consensus.Raft (Some (New "raft shutdown failed")).

Definition formCluster (requestID : string) (c : consensus.Type_) : request.FormCluster :=
  request.mkFormCluster requestID ["p1"; "p2"; "p3"] c.

(** A consensus library that hands out the replica [rh], and a transport
    that delivers. *)
Definition worker_env (rh : consensusExecutor) : worker.Env :=
  worker.mkEnv (λ _, inl rh) (λ _, inl rh) (λ _ _, None).

Definition node_env (rh : consensusExecutor) : node.Env :=
  node.mkEnv (λ _, inl rh) (λ _, inl rh) (λ _ _, None).

End sample.

(** * Properties *)

(** ** [float64]: comparisons, and the conversion of a length *)

Module float64_facts.

Open Scope Z_scope.

Lemma SFcompare_antisym (x y : spec_float) :
  SFcompare y x = option_map CompOpp (SFcompare x y).
Proof.
  destruct x as [sx|sx| |sx mx ex], y as [sy|sy| |sy my ey]; simpl; try reflexivity;
    try (destruct sx; reflexivity); try (destruct sy; reflexivity);
    try (destruct sx, sy; reflexivity).
  destruct sx, sy; simpl; try reflexivity.
  - rewrite (Z.compare_antisym ey ex). destruct (ey ?= ex)%Z; simpl; try reflexivity.
    rewrite CompOpp_involutive. f_equal. exact (Pos.compare_cont_antisym my mx Eq).
  - rewrite (Z.compare_antisym ey ex). destruct (ey ?= ex)%Z; simpl; try reflexivity.
    f_equal. symmetry. exact (Pos.compare_cont_antisym mx my Eq).
Qed.

Lemma leb_ltb_false (a b : float) : (a <=? b)%float = true → (b <? a)%float = false.
Proof.
  rewrite FloatAxioms.leb_spec, FloatAxioms.ltb_spec. unfold SFleb, SFltb.
  rewrite (SFcompare_antisym (Prim2SF a) (Prim2SF b)).
  destruct (SFcompare (Prim2SF a) (Prim2SF b)) as [[]|]; simpl; congruence.
Qed.

Lemma ltb_leb_false (a b : float) : (a <? b)%float = true → (b <=? a)%float = false.
Proof.
  rewrite FloatAxioms.leb_spec, FloatAxioms.ltb_spec. unfold SFleb, SFltb.
  rewrite (SFcompare_antisym (Prim2SF a) (Prim2SF b)).
  destruct (SFcompare (Prim2SF a) (Prim2SF b)) as [[]|]; simpl; congruence.
Qed.

Lemma ltb_ltb_false (a b : float) : (a <? b)%float = true → (b <? a)%float = false.
Proof.
  rewrite !FloatAxioms.ltb_spec. unfold SFltb.
  rewrite (SFcompare_antisym (Prim2SF a) (Prim2SF b)).
  destruct (SFcompare (Prim2SF a) (Prim2SF b)) as [[]|]; simpl; congruence.
Qed.

Lemma eqb_ltb_false (a b : float) : (a =? b)%float = true → (b <? a)%float = false.
Proof.
  rewrite FloatAxioms.eqb_spec, FloatAxioms.ltb_spec. unfold SFeqb, SFltb.
  rewrite (SFcompare_antisym (Prim2SF a) (Prim2SF b)).
  destruct (SFcompare (Prim2SF a) (Prim2SF b)) as [[]|]; simpl; congruence.
Qed.

(** A value that is not equal to itself (a NaN) is not above zero. *)
Lemma nan_ltb_false (t : float) : (t =? t)%float = false → (0 <? t)%float = false.
Proof.
  rewrite FloatAxioms.ltb_spec, FloatAxioms.eqb_spec.
  change (Prim2SF 0) with (S754_zero false). unfold SFltb, SFeqb.
  destruct (Prim2SF t) as [s|s| |s m e]; simpl; try congruence.
  - destruct s; congruence.
  - destruct s; simpl; try congruence;
      rewrite Z.compare_refl; now rewrite Pos.compare_cont_refl.
Qed.

(** ** The mantissa that rounding keeps *)

Lemma digits2_pos_size (p : positive) : digits2_pos p = Pos.size p.
Proof. induction p; simpl; congruence. Qed.

Lemma Zdigits2_log2 (m : Z) : 0 < m → Zdigits2 m = Z.log2 m + 1.
Proof.
  destruct m as [|p|p]; try lia. intros _. simpl.
  destruct p; simpl; rewrite ?digits2_pos_size; lia.
Qed.

Lemma Zdigits2_mono (a b : Z) : 0 < a → a <= b → Zdigits2 a <= Zdigits2 b.
Proof.
  intros Ha Hab. rewrite !Zdigits2_log2 by lia.
  pose proof (Z.log2_le_mono a b Hab). lia.
Qed.

Lemma Zdigits2_succ (a : Z) : 0 < a → Zdigits2 (a + 1) <= Zdigits2 a + 1.
Proof.
  intros Ha. rewrite !Zdigits2_log2 by lia.
  pose proof (Z.log2_succ_le a). unfold Z.succ in *. lia.
Qed.

Lemma digits2_pos_iter_xO (p d : positive) :
  Zpos (digits2_pos (Pos.iter xO p d)) = Zpos (digits2_pos p) + Zpos d.
Proof.
  induction d as [|d IH] using Pos.peano_ind.
  - simpl. lia.
  - rewrite Pos.iter_succ. simpl. lia.
Qed.

Lemma shr_m_shr_1 (mrs : shr_record) :
  0 <= shr_m mrs → shr_m (shr_1 mrs) = Z.div2 (shr_m mrs).
Proof.
  destruct mrs as [m r s]; simpl.
  destruct m as [|[p|p|]|p]; simpl; try reflexivity; lia.
Qed.

Lemma shr_m_iter_pos (n : positive) (mrs : shr_record) :
  0 <= shr_m mrs → shr_m (SpecFloat.iter_pos shr_1 n mrs) = Z.shiftr (shr_m mrs) (Zpos n).
Proof.
  revert mrs. induction n as [n IH|n IH|]; intros mrs H; simpl.
  - assert (H1 : 0 <= shr_m (shr_1 mrs)).
    { rewrite shr_m_shr_1 by assumption. rewrite Z.div2_div. apply Z.div_pos; lia. }
    assert (H2 : 0 <= shr_m (SpecFloat.iter_pos shr_1 n (shr_1 mrs))).
    { rewrite IH by assumption. apply Z.shiftr_nonneg. assumption. }
    rewrite IH, IH, shr_m_shr_1 by assumption.
    rewrite Z.div2_spec, !Z.shiftr_shiftr by lia. f_equal. lia.
  - assert (H2 : 0 <= shr_m (SpecFloat.iter_pos shr_1 n mrs)).
    { rewrite IH by assumption. apply Z.shiftr_nonneg. assumption. }
    rewrite IH, IH by assumption.
    rewrite !Z.shiftr_shiftr by lia. f_equal. lia.
  - rewrite shr_m_shr_1 by assumption. apply Z.div2_spec.
Qed.

Lemma shiftr_pos_digits (m n : Z) :
  0 < m → 0 < n < Zdigits2 m →
  0 < Z.shiftr m n ∧ Zdigits2 (Z.shiftr m n) = Zdigits2 m - n.
Proof.
  intros Hm Hn. rewrite (Zdigits2_log2 m Hm) in *.
  assert (Hpos : 0 < Z.shiftr m n).
  { rewrite Z.shiftr_div_pow2 by lia. apply Z.div_str_pos. split.
    - apply Z.pow_pos_nonneg; lia.
    - apply Z.log2_le_pow2; lia. }
  split; [assumption|].
  rewrite (Zdigits2_log2 _ Hpos). rewrite Z.log2_shiftr by assumption. lia.
Qed.

Lemma shr_record_of_loc_m (m : Z) (l : location) : shr_m (shr_record_of_loc m l) = m.
Proof. destruct l as [|[]]; reflexivity. Qed.

(** Above the least exponent of binary64, -1074, the shift of [shr_fexp] keeps a positive
    mantissa positive, and keeps the sum of its digits and its exponent. *)
Lemma shr_fexp_pos (m e : Z) (l : location) :
  0 < m → (-1074) <= e →
  0 < shr_m (fst (shr_fexp prec emax m e l))
  ∧ e <= snd (shr_fexp prec emax m e l)
  ∧ Zdigits2 (shr_m (fst (shr_fexp prec emax m e l))) + snd (shr_fexp prec emax m e l)
    = Zdigits2 m + e.
Proof.
  intros Hm He. unfold shr_fexp, shr.
  assert (Hd : 0 < Zdigits2 m).
  { rewrite Zdigits2_log2 by assumption. pose proof (Z.log2_nonneg m). lia. }
  remember (fexp prec emax (Zdigits2 m + e) - e) as n eqn:Hn.
  assert (Hb : n < Zdigits2 m).
  { subst n. unfold fexp, emin, prec, emax in *. lia. }
  destruct n as [|p|p]; simpl; rewrite ?shr_record_of_loc_m; try lia.
  rewrite shr_m_iter_pos by (rewrite shr_record_of_loc_m; lia).
  rewrite shr_record_of_loc_m.
  destruct (shiftr_pos_digits m (Zpos p) Hm) as [H1 H2]; [lia|].
  rewrite H2. lia.
Qed.

Lemma round_nearest_even_bounds (m : Z) (l : location) :
  0 < m → m <= round_nearest_even m l <= m + 1.
Proof.
  intros Hm. destruct l as [|[]]; simpl; try lia. destruct (Z.even m); lia.
Qed.

(** Rounding a positive mantissa that neither underflows nor overflows gives
    a finite number of the same sign. *)
Lemma binary_round_aux_finite (sx : bool) (m e : Z) (l : location) :
  0 < m → (-1074) <= e → Zdigits2 m + e <= 971 →
  ∃ m' e',
    binary_round_aux prec emax sx m e l = S754_finite sx m' e'
    ∧ e <= e'
    ∧ Zdigits2 m + e <= Zpos (digits2_pos m') + e' <= Zdigits2 m + e + 1.
Proof.
  intros Hm He HM. unfold binary_round_aux.
  destruct (shr_fexp_pos m e l Hm He) as (H1 & H2 & H3).
  destruct (shr_fexp prec emax m e l) as [mrs' e'] eqn:E1. simpl in H1, H2, H3.
  set (m1 := round_nearest_even (shr_m mrs') (loc_of_shr_record mrs')).
  pose proof (round_nearest_even_bounds (shr_m mrs') (loc_of_shr_record mrs') H1) as Hr.
  fold m1 in Hr.
  assert (Hm1 : 0 < m1) by lia.
  assert (He' : (-1074) <= e') by lia.
  destruct (shr_fexp_pos m1 e' loc_Exact Hm1 He') as (G1 & G2 & G3).
  destruct (shr_fexp prec emax m1 e' loc_Exact) as [mrs'' e''] eqn:E2. simpl in G1, G2, G3.
  assert (Hd1 : Zdigits2 (shr_m mrs') <= Zdigits2 m1 <= Zdigits2 (shr_m mrs') + 1).
  { split.
    - apply Zdigits2_mono; lia.
    - destruct (Z.eq_dec m1 (shr_m mrs')) as [->|Hne]; [lia|].
      replace m1 with (shr_m mrs' + 1) by lia. apply Zdigits2_succ; lia. }
  destruct (shr_m mrs'') as [|q|q] eqn:Eq; try lia.
  exists q, e''. change (Zdigits2 (Z.pos q)) with (Z.pos (digits2_pos q)) in G3.
  assert (Hq : 1 <= Zpos (digits2_pos q)) by lia.
  replace (e'' <=? emax - prec) with true.
  - repeat split; lia.
  - symmetry. apply Z.leb_le. unfold emax, prec. lia.
Qed.

(** The conversion of a positive integer below [2^63] is a positive finite
    number. *)
Lemma binary_normalize_of_pos (n : Z) :
  0 < n < 2 ^ 63 →
  ∃ m e,
    binary_normalize prec emax n 0 false = S754_finite false m e
    ∧ -52 <= e ∧ 1 <= Zpos (digits2_pos m) + e <= 64.
Proof.
  intros [Hn Hlt]. destruct n as [|p|p]; try lia. unfold binary_normalize.
  unfold binary_round, shl_align.
  assert (Hd : 1 <= Zpos (digits2_pos p) <= 63).
  { change (Zpos (digits2_pos p)) with (Zdigits2 (Zpos p)).
    rewrite Zdigits2_log2 by lia. pose proof (Z.log2_nonneg (Zpos p)).
    assert (Z.log2 (Zpos p) < 63) by (apply Z.log2_lt_pow2; lia). lia. }
  remember (fexp prec emax (Z.pos (digits2_pos p) + 0) - 0) as k eqn:Hk.
  assert (Hk' : k = Z.max (Zpos (digits2_pos p) - 53) (-1074)).
  { subst k. unfold fexp, emin, prec, emax. lia. }
  destruct k as [|d|d].
  - destruct (binary_round_aux_finite false (Zpos p) 0 loc_Exact) as (m & e & E & B1 & B2);
      [lia|lia|change (Zdigits2 (Zpos p)) with (Zpos (digits2_pos p)); lia|].
    exists m, e. change (Zdigits2 (Zpos p)) with (Zpos (digits2_pos p)) in B2.
    repeat split; try assumption; lia.
  - destruct (binary_round_aux_finite false (Zpos p) 0 loc_Exact) as (m & e & E & B1 & B2);
      [lia|lia|change (Zdigits2 (Zpos p)) with (Zpos (digits2_pos p)); lia|].
    exists m, e. change (Zdigits2 (Zpos p)) with (Zpos (digits2_pos p)) in B2.
    repeat split; try assumption; lia.
  - assert (Hfe : fexp prec emax (Z.pos (digits2_pos p) + 0) = Zneg d) by lia.
    rewrite Hfe.
    pose proof (digits2_pos_iter_xO p d) as Hdig.
    destruct (binary_round_aux_finite false (Zpos (Pos.iter xO p d)) (Zneg d) loc_Exact)
      as (m & e & E & B1 & B2).
    + lia.
    + lia.
    + change (Zdigits2 (Zpos (Pos.iter xO p d)))
        with (Zpos (digits2_pos (Pos.iter xO p d))). lia.
    + exists m, e.
      change (Zdigits2 (Zpos (Pos.iter xO p d)))
        with (Zpos (digits2_pos (Pos.iter xO p d))) in B2.
      repeat split; try assumption; lia.
Qed.

Lemma Prim2SF_of_int (n : Z) :
  0 < n < 2 ^ 63 →
  ∃ m e,
    Prim2SF (float64.of_int n) = S754_finite false m e
    ∧ -52 <= e ∧ 1 <= Zpos (digits2_pos m) + e <= 64.
Proof.
  intros Hn. unfold float64.of_int. rewrite FloatAxioms.of_uint63_spec.
  rewrite Uint63.of_Z_spec. rewrite Z.mod_small by (change wB with (2 ^ 63); lia).
  now apply binary_normalize_of_pos.
Qed.

(** The quotient of two such numbers does not underflow. *)
Lemma SFdiv_core_binary_pos (mx : positive) (ex : Z) (my : positive) (ey : Z) :
  -52 <= ex → 1 <= Zpos (digits2_pos mx) + ex <= 64 →
  -52 <= ey → 1 <= Zpos (digits2_pos my) + ey <= 64 →
  let r := SFdiv_core_binary prec emax (Zpos mx) ex (Zpos my) ey in
  0 < fst (fst r) ∧ (-1074) <= snd (fst r)
  ∧ Zdigits2 (fst (fst r)) + snd (fst r) <= 971.
Proof.
  intros Bx1 Bx2 By1 By2. unfold SFdiv_core_binary.
  change (Zdigits2 (Zpos mx)) with (Zpos (digits2_pos mx)).
  change (Zdigits2 (Zpos my)) with (Zpos (digits2_pos my)).
  set (d1 := Zpos (digits2_pos mx)) in *. set (d2 := Zpos (digits2_pos my)) in *.
  assert (Hd1 : 1 <= d1) by (unfold d1; lia).
  assert (Hd2 : 1 <= d2) by (unfold d2; lia).
  set (e' := Z.min (fexp prec emax (d1 + ex - (d2 + ey))) (ex - ey)).
  assert (He' : e' = Z.min (d1 + ex - (d2 + ey) - 53) (ex - ey)).
  { unfold e', fexp, emin, prec, emax. lia. }
  set (s := ex - ey - e').
  assert (Hs : s = Z.max (d2 - d1 + 53) 0) by (unfold s; lia).
  set (m' := match s with
             | Z.pos _ => Z.shiftl (Zpos mx) s
             | 0 => Zpos mx
             | Z.neg _ => 0
             end).
  assert (Hm' : 0 < m' ∧ Zdigits2 m' = d1 + s).
  { unfold m'. destruct s as [|p|p] eqn:Es; try lia.
    - split; [lia|]. change (Zdigits2 (Zpos mx)) with d1. lia.
    - assert (Hp : 0 < Z.shiftl (Zpos mx) (Zpos p)).
      { rewrite Z.shiftl_mul_pow2 by lia. apply Z.mul_pos_pos; [lia|].
        apply Z.pow_pos_nonneg; lia. }
      split; [assumption|].
      rewrite (Zdigits2_log2 _ Hp). rewrite Z.log2_shiftl by lia.
      unfold d1. change (Zpos (digits2_pos mx)) with (Zdigits2 (Zpos mx)).
      rewrite (Zdigits2_log2 (Zpos mx)) by lia. lia. }
  destruct Hm' as [Hm'pos Hm'dig].
  assert (Hge : Zpos my < 2 ^ d2 <= m').
  { split.
    - unfold d2. change (Zpos (digits2_pos my)) with (Zdigits2 (Zpos my)).
      rewrite Zdigits2_log2 by lia. apply Z.log2_spec. lia.
    - apply Z.log2_le_pow2; [assumption|].
      rewrite (Zdigits2_log2 _ Hm'pos) in Hm'dig. lia. }
  pose proof (Z_div_mod m' (Zpos my) ltac:(lia)) as Hdm.
  destruct (Z.div_eucl m' (Zpos my)) as [q r] eqn:Eqr. simpl.
  destruct Hdm as [Hdm Hr].
  assert (Hq : 1 <= q) by nia.
  assert (Hqm : q <= m') by nia.
  pose proof (Zdigits2_mono q m' ltac:(lia) Hqm).
  split; [lia|]. split; lia.
Qed.

(** ** The response ratio *)

(** No result out of at least one peer: the ratio is zero. *)
Lemma zero_div_of_int (m : Z) :
  0 < m < 2 ^ 63 → (float64.of_int 0 / float64.of_int m =? 0)%float = true.
Proof.
  intros Hm. destruct (Prim2SF_of_int m Hm) as (mm & e & E & _).
  rewrite FloatAxioms.eqb_spec, FloatAxioms.div_spec, E.
  reflexivity.
Qed.

(** At least one result: the ratio is not zero. *)
Lemma div_of_int_nonzero (n m : Z) :
  0 < n < 2 ^ 63 → 0 < m < 2 ^ 63 →
  (float64.of_int n / float64.of_int m =? 0)%float = false.
Proof.
  intros Hn Hm.
  destruct (Prim2SF_of_int n Hn) as (mx & ex & Ex & Bx1 & Bx2).
  destruct (Prim2SF_of_int m Hm) as (my & ey & Ey & By1 & By2).
  rewrite FloatAxioms.eqb_spec, FloatAxioms.div_spec, Ex, Ey.
  change (Prim2SF 0) with (S754_zero false).
  unfold SF64div, SFdiv.
  destruct (SFdiv_core_binary_pos mx ex my ey Bx1 Bx2 By1 By2) as (H1 & H2 & H3).
  destruct (SFdiv_core_binary prec emax (Zpos mx) ex (Zpos my) ey) as [[mz ez] lz].
  simpl in H1, H2, H3.
  destruct (binary_round_aux_finite (xorb false false) mz ez lz H1 H2 H3) as (q & e & E & _).
  rewrite E. reflexivity.
Qed.

End float64_facts.

(** ** The head node *)

Section HeadProperties.

Import errors.

Open Scope float_scope.

Variable defaultExecutionThreshold : float.
Variable consensus_Parse : string → consensus.Type_ * option error.
Variable mapRange : ∀ V : Type, gmap string V → list (string * V).
Variable text : Sentinel → string.

(** A [range] loop enumerates every entry of the map once, in some order. *)
Hypothesis mapRange_perm : ∀ (V : Type) (m : gmap string V), mapRange V m ≡ₚ map_to_list m.

(** The default threshold is itself a threshold: it lies in (0, 1]. *)
Hypothesis default_in_range :
  (0 <? defaultExecutionThreshold) = true ∧ (defaultExecutionThreshold <=? 1) = true.

Abbreviation execute := (head.execute defaultExecutionThreshold consensus_Parse mapRange).
Abbreviation processExecute :=
  (head.processExecute defaultExecutionThreshold consensus_Parse mapRange text).
Abbreviation determineThreshold := (head.determineThreshold defaultExecutionThreshold).
Abbreviation consensusOf := (head.consensusOf consensus_Parse).
Abbreviation dispatched := (head.dispatched consensus_Parse).

Lemma mapRange_empty (V : Type) : mapRange V ∅ = [].
Proof.
  apply Permutation_nil_r. rewrite mapRange_perm. now rewrite map_to_list_empty.
Qed.

Lemma mapRange_singleton (V : Type) (k : string) (v : V) : mapRange V {[k := v]} = [(k, v)].
Proof.
  apply Permutation_singleton_r. rewrite mapRange_perm. now rewrite map_to_list_singleton.
Qed.

Lemma mapRange_lookup (V : Type) (m : gmap string V) (k : string) (v : V) :
  (k, v) ∈ mapRange V m ↔ m !! k = Some v.
Proof. rewrite mapRange_perm. apply elem_of_map_to_list. Qed.

(** The effective threshold is positive and at most one. *)
Lemma determineThreshold_in_range (req : execute.Request) :
  (0 <? determineThreshold req) = true ∧ (determineThreshold req <=? 1) = true.
Proof.
  unfold head.determineThreshold.
  destruct (0 <? execute.Threshold (execute.Config_ req)) eqn:H0; simpl;
    [|exact default_in_range].
  destruct (execute.Threshold (execute.Config_ req) <=? 1) eqn:H1;
    [now split|exact default_in_range].
Qed.

(** What [execute] returns once the work order is out: the fourth phase. *)
Lemma execute_dispatched (h : head.HeadNode) (env : head.Env) (requestID : string)
    (req : execute.Request) (subgroup : string) (peers : list execute.PeerID) :
  dispatched h env requestID req subgroup peers →
  execute h env requestID req subgroup =
    let algo := consensusOf h req in
    let disband := if head.consensusRequired algo then Some (requestID, peers) else None in
    if bool_decide (algo = consensus.PBFT) then
      let results := head.gatherExecutionResultsPBFT env requestID peers in
      head.mkReturn
        match mapRange _ results with
        | (_, res) :: _ => execute.NodeResult_Code res
        | [] => codes.OK
        end
        results (execute.mkCluster peers) None disband
    else
      let results := head.gatherExecutionResults env requestID peers in
      let ratio := head.respondRatio (size results) (length peers) in
      head.mkReturn
        (if ratio =? 0 then codes.NoContent
         else if ratio <? determineThreshold req then codes.PartialContent
         else codes.OK)
        results (execute.mkCluster peers) None disband.
Proof.
  unfold head.dispatched, head.execute, head.respondRatio.
  unfold head.consensusOf, head.nodeCountOf.
  intros (Hroll & Hform & Hsign & Hsend). cbv zeta in *.
  rewrite Hroll.
  destruct (head.consensusRequired _) eqn:Hreq.
  - rewrite (Hform eq_refl). case_bool_decide as Hp.
    + rewrite (Hsign Hp), Hsend. reflexivity.
    + rewrite Hsend. reflexivity.
  - case_bool_decide as Hp.
    + rewrite (Hsign Hp), Hsend. reflexivity.
    + rewrite Hsend. reflexivity.
Qed.

(** Every error [execute] returns wraps the error of a collaborator behind a
    prefix that names the phase, so that its text is not empty and
    [errors.Is] sees what the collaborator's error is. *)
Lemma execute_error_wrapped (h : head.HeadNode) (env : head.Env) (requestID : string)
    (req : execute.Request) (subgroup : string) (err : error) :
  head.ret_err (execute h env requestID req subgroup) = Some err →
  ∃ c prefix inner, err = Errorf (String c prefix) inner.
Proof.
  unfold head.execute. cbv zeta.
  destruct (head.executeRollCall _ _ _ _ _ _) as [peers [e|]]; simpl.
  { intros [= <-]. eauto. }
  destruct (if head.consensusRequired _ then _ else None) as [e|]; simpl.
  { intros [= <-]. eauto. }
  destruct (if bool_decide _ then head.Sign env req else None) as [e|]; simpl.
  { intros [= <-]. eauto. }
  destruct (head.SendToMany _ _ _ _) as [e|]; simpl.
  { intros [= <-]. eauto. }
  destruct (bool_decide _); simpl; discriminate.
Qed.

(** C8. The effective threshold of a request is its configured threshold
    when that value lies in (0, 1], and the default threshold otherwise: in
    particular when the configured value is zero (the value of an unset
    field), negative, greater than one, or not a number. *)
Theorem determineThreshold_effective (req : execute.Request) :
  let t := execute.Threshold (execute.Config_ req) in
  ((0 <? t) = true ∧ (t <=? 1) = true → determineThreshold req = t)
  ∧ (¬ ((0 <? t) = true ∧ (t <=? 1) = true) →
     determineThreshold req = defaultExecutionThreshold)
  ∧ ((t =? 0) = true → determineThreshold req = defaultExecutionThreshold)
  ∧ ((t <? 0) = true → determineThreshold req = defaultExecutionThreshold)
  ∧ ((1 <? t) = true → determineThreshold req = defaultExecutionThreshold)
  ∧ ((t =? t) = false → determineThreshold req = defaultExecutionThreshold).
Proof.
  intros t. unfold head.determineThreshold. fold t.
  repeat split.
  - intros [H0 H1]. now rewrite H0, H1.
  - intros Hn. destruct (0 <? t) eqn:H0; [|reflexivity].
    destruct (t <=? 1) eqn:H1; [|reflexivity]. exfalso. apply Hn. now split.
  - intros Hz. now rewrite (float64_facts.eqb_ltb_false _ _ Hz).
  - intros Hneg. now rewrite (float64_facts.ltb_ltb_false _ _ Hneg).
  - intros Hbig. rewrite (float64_facts.ltb_leb_false _ _ Hbig).
    now rewrite andb_false_r.
  - intros Hnan. now rewrite (float64_facts.nan_ltb_false _ Hnan).
Qed.

(** C1, as amended. In an execution without PBFT whose work order went out
    to a cluster of at least one peer: if no result arrived the overall code
    is NoContent; if at least one result arrived and the response ratio is
    below the threshold it is PartialContent; and if at least one result
    arrived and the ratio is not below the threshold (in particular when it
    is at least the threshold) it is OK, whatever codes the peers that
    replied returned. In all three cases the collected results are returned
    and the error is nil. *)
Theorem execute_scoring (h : head.HeadNode) (env : head.Env) (requestID : string)
    (req : execute.Request) (subgroup : string) (peers : list execute.PeerID) :
  consensusOf h req ≠ consensus.PBFT →
  dispatched h env requestID req subgroup peers →
  (0 < length peers)%nat →
  (Z.of_nat (length peers) < 2 ^ 63)%Z →
  (size (head.gatherExecutionResults env requestID peers) ≤ length peers)%nat →
  let results := head.gatherExecutionResults env requestID peers in
  let r := execute h env requestID req subgroup in
  let ratio := head.respondRatio (size results) (length peers) in
  head.ret_results r = results
  ∧ head.ret_err r = None
  ∧ (size results = 0%nat → head.ret_code r = codes.NoContent)
  ∧ ((0 < size results)%nat → (ratio <? determineThreshold req) = true →
     head.ret_code r = codes.PartialContent)
  ∧ ((0 < size results)%nat → (ratio <? determineThreshold req) = false →
     head.ret_code r = codes.OK)
  ∧ ((0 < size results)%nat → (determineThreshold req <=? ratio) = true →
     head.ret_code r = codes.OK).
Proof.
  intros Hnp Hd Hpos Hlen Hsize results r ratio.
  unfold r. rewrite (execute_dispatched _ _ _ _ _ _ Hd). cbv zeta.
  rewrite bool_decide_eq_false_2 by assumption. simpl.
  fold results. fold ratio.
  assert (Hzero : size results = 0%nat → (ratio =? 0) = true).
  { intros Hz. unfold ratio, head.respondRatio. rewrite Hz.
    apply float64_facts.zero_div_of_int. lia. }
  assert (Hnz : (0 < size results)%nat → (ratio =? 0) = false).
  { intros Hz. unfold ratio, head.respondRatio.
    apply float64_facts.div_of_int_nonzero; unfold results in *; lia. }
  repeat split.
  - intros Hz. now rewrite (Hzero Hz).
  - intros Hz Hlt. now rewrite (Hnz Hz), Hlt.
  - intros Hz Hlt. now rewrite (Hnz Hz), Hlt.
  - intros Hz Hle. now rewrite (Hnz Hz), (float64_facts.leb_ltb_false _ _ Hle).
Qed.

(** C2, as amended. In an execution without PBFT whose cluster is the single
    selected peer [P], if [P] reports a result then the overall code is OK,
    whatever the code [X] of that result and whatever the configured
    threshold. The helper [determineOverallCode] of package [node], which
    [execute] does not call, is what returns [X] for a single result. *)
Theorem execute_single_peer (h : head.HeadNode) (env : head.Env) (requestID : string)
    (req : execute.Request) (subgroup : string) (P : execute.PeerID)
    (res : execute.NodeResult) :
  consensusOf h req ≠ consensus.PBFT →
  dispatched h env requestID req subgroup [P] →
  head.gatherExecutionResults env requestID [P] = {[P := res]} →
  head.ret_code (execute h env requestID req subgroup) = codes.OK
  ∧ head.ret_results (execute h env requestID req subgroup) = {[P := res]}
  ∧ node.determineOverallCode mapRange {[P := execute.Result_ res]}
    = execute.NodeResult_Code res.
Proof.
  intros Hnp Hd Hres.
  rewrite (execute_dispatched _ _ _ _ _ _ Hd). cbv zeta.
  rewrite bool_decide_eq_false_2 by assumption. simpl.
  rewrite Hres, map_size_singleton.
  change (head.respondRatio 1 (length [P])) with (head.respondRatio 1 1).
  replace (head.respondRatio 1 1) with 1 by (vm_compute; reflexivity).
  replace (1 =? 0) with false by (vm_compute; reflexivity).
  destruct (determineThreshold_in_range req) as [_ Hle].
  rewrite (float64_facts.leb_ltb_false _ _ Hle).
  repeat split.
  unfold node.determineOverallCode.
  rewrite map_size_singleton. simpl. now rewrite mapRange_singleton.
Qed.

(** C3, as amended. Parsing is case-insensitive and accepts the empty
    string (no consensus), "raft" and "pbft", and nothing else; any other
    string makes the parser return an error. The head does not pass that
    error on to the caller of the execution request: it runs the request
    under its default consensus, and when the phases of the execution go
    through it returns a nil error. *)
Theorem parseConsensusAlgorithm_accepts :
  (∀ (value : string) (c : consensus.Type_),
     node.parseConsensusAlgorithm value = (c, None) ↔
       (value = "" ∧ c = consensus.NoConsensus)
       ∨ (strings.ToLower value = "raft" ∧ c = consensus.Raft)
       ∨ (strings.ToLower value = "pbft" ∧ c = consensus.PBFT))
  ∧ (∀ value : string,
       value ≠ "" → strings.ToLower value ≠ "raft" → strings.ToLower value ≠ "pbft" →
       ∃ e, node.parseConsensusAlgorithm value = (consensus.NoConsensus, Some e))
  ∧ (∀ v v' : string,
       strings.ToLower v = strings.ToLower v' →
       fst (node.parseConsensusAlgorithm v) = fst (node.parseConsensusAlgorithm v')
       ∧ (snd (node.parseConsensusAlgorithm v) = None
          ↔ snd (node.parseConsensusAlgorithm v') = None))
  ∧ (∀ (h : head.HeadNode) (env : head.Env) (requestID : string) (req : execute.Request)
       (subgroup : string) (c : consensus.Type_) (e : error),
       consensus_Parse (execute.ConsensusAlgorithm (execute.Config_ req)) = (c, Some e) →
       consensusOf h req = head.DefaultConsensus (head.cfg h)
       ∧ ∀ peers, dispatched h env requestID req subgroup peers →
           head.ret_err (execute h env requestID req subgroup) = None).
Proof.
  assert (Hempty : ∀ v, strings.ToLower v = "" → v = "").
  { intros [|a v]; [reflexivity|discriminate]. }
  assert (Hparse : ∀ value,
    node.parseConsensusAlgorithm value =
      if decide (value = "") then (consensus.NoConsensus, None)
      else if decide (strings.ToLower value = "raft") then (consensus.Raft, None)
      else if decide (strings.ToLower value = "pbft") then (consensus.PBFT, None)
      else (consensus.NoConsensus,
            Some (New ("unknown consensus value (" +:+ value +:+ ")")))).
  { intros value. unfold node.parseConsensusAlgorithm. cbv zeta.
    destruct (String.eqb_spec value ""); destruct (decide (value = "")); try congruence.
    destruct (String.eqb_spec (strings.ToLower value) "raft");
      destruct (decide (strings.ToLower value = "raft")); try congruence.
    destruct (String.eqb_spec (strings.ToLower value) "pbft");
      destruct (decide (strings.ToLower value = "pbft")); congruence. }
  split; [|split; [|split]].
  - intros value c. rewrite Hparse. split.
    + repeat case_decide; intros [= <-]; auto.
    + intros [[-> ->]|[[Hl ->]|[Hl ->]]].
      * reflexivity.
      * destruct (decide (value = "")) as [->|]; [discriminate|].
        now rewrite decide_True.
      * destruct (decide (value = "")) as [->|]; [discriminate|].
        rewrite decide_False by (rewrite Hl; discriminate). now rewrite decide_True.
  - intros value H1 H2 H3. rewrite Hparse.
    rewrite !decide_False by assumption. eauto.
  - intros v v' Hl. rewrite !Hparse. rewrite <- Hl.
    destruct (decide (v = "")) as [->|Hv]; destruct (decide (v' = "")) as [->|Hv'].
    + now split.
    + exfalso. apply Hv'. apply Hempty. now rewrite <- Hl.
    + exfalso. apply Hv. apply Hempty. now rewrite Hl.
    + repeat case_decide; simpl; split; try reflexivity; split; congruence.
  - intros h env requestID req subgroup c e Hp.
    assert (Hc : consensusOf h req = head.DefaultConsensus (head.cfg h)).
    { unfold head.consensusOf. now rewrite Hp. }
    split; [assumption|].
    intros peers Hd. rewrite (execute_dispatched _ _ _ _ _ _ Hd). cbv zeta.
    now destruct (bool_decide _).
Qed.

(** C7. In a PBFT execution in which at least one result is returned to the
    head, the code [execute] returns is the code of a result in the result
    map it returns: of the single result when there is one, and the common
    code when the results agree on it. *)
Theorem execute_PBFT_code (h : head.HeadNode) (env : head.Env) (requestID : string)
    (req : execute.Request) (subgroup : string) (peers : list execute.PeerID) :
  consensusOf h req = consensus.PBFT →
  dispatched h env requestID req subgroup peers →
  head.gatherExecutionResultsPBFT env requestID peers ≠ ∅ →
  let results := head.gatherExecutionResultsPBFT env requestID peers in
  let r := execute h env requestID req subgroup in
  head.ret_err r = None
  ∧ head.ret_results r = results
  ∧ (∃ p res, head.ret_results r !! p = Some res
              ∧ head.ret_code r = execute.NodeResult_Code res)
  ∧ (∀ p res, results = {[p := res]} → head.ret_code r = execute.NodeResult_Code res)
  ∧ (∀ c, map_Forall (λ _ res, execute.NodeResult_Code res = c) results →
          head.ret_code r = c).
Proof.
  intros Hp Hd Hne results r. unfold r.
  rewrite (execute_dispatched _ _ _ _ _ _ Hd). cbv zeta.
  rewrite bool_decide_eq_true_2 by assumption. simpl. fold results.
  destruct (mapRange _ results) as [|[p res] l] eqn:Hr.
  { exfalso. apply Hne. fold results. apply map_to_list_empty_iff.
    apply Permutation_nil_r. now rewrite <- mapRange_perm, Hr. }
  assert (Hin : results !! p = Some res).
  { apply mapRange_lookup. rewrite Hr. apply list_elem_of_here. }
  repeat split.
  - exists p, res. now split.
  - intros p' res' Heq. rewrite Heq in Hin.
    apply lookup_singleton_Some in Hin. now destruct Hin as [_ <-].
  - intros c Hall. exact (Hall p res Hin).
Qed.

(** C10. In a PBFT execution in which no result at all arrives before the
    deadline, [execute] returns the code OK with an empty result map and a
    nil error. *)
Theorem execute_PBFT_no_result (h : head.HeadNode) (env : head.Env) (requestID : string)
    (req : execute.Request) (subgroup : string) (peers : list execute.PeerID) :
  consensusOf h req = consensus.PBFT →
  dispatched h env requestID req subgroup peers →
  head.gatherExecutionResultsPBFT env requestID peers = ∅ →
  let r := execute h env requestID req subgroup in
  head.ret_code r = codes.OK ∧ head.ret_results r = ∅ ∧ head.ret_err r = None.
Proof.
  intros Hp Hd Hres r. unfold r.
  rewrite (execute_dispatched _ _ _ _ _ _ Hd). cbv zeta.
  rewrite bool_decide_eq_true_2 by assumption. simpl.
  rewrite Hres, mapRange_empty. now repeat split.
Qed.

(** C9. When the orchestration of a valid request fails, the response handed
    to the transport carries the code [execute] returned, and its
    ErrorMessage is set, to the text of the error, exactly when the error is
    or wraps RollCallTimeout or ExecutionNotEnoughNodes; for every other
    error the ErrorMessage stays empty. *)
Theorem processExecute_ErrorMessage (h : head.HeadNode) (env : head.Env)
    (from : execute.PeerID) (req : request.Execute) (requestID : string) (err : error) :
  head.Valid env req = None →
  head.ret_err (execute h env requestID (request.Execute_Request req)
                  (request.Execute_Topic req)) = Some err →
  let r := execute h env requestID (request.Execute_Request req) (request.Execute_Topic req) in
  let res := fst (processExecute h env from req requestID) in
  response.Execute_Code res = head.ret_code r
  ∧ (IsSentinel err RollCallTimeout = true ∨ IsSentinel err ExecutionNotEnoughNodes = true →
     response.Execute_ErrorMessage res = Error text err
     ∧ response.Execute_ErrorMessage res ≠ "")
  ∧ (IsSentinel err RollCallTimeout = false ∧ IsSentinel err ExecutionNotEnoughNodes = false →
     response.Execute_ErrorMessage res = "")
  ∧ (response.Execute_ErrorMessage res ≠ "" ↔
     IsSentinel err RollCallTimeout = true ∨ IsSentinel err ExecutionNotEnoughNodes = true).
Proof.
  clear mapRange_perm default_in_range.
  intros Hv Herr r res.
  assert (Hne : Error text err ≠ "").
  { destruct (execute_error_wrapped _ _ _ _ _ _ Herr) as (c & prefix & inner & ->).
    discriminate. }
  assert (Hres : res =
    let res0 := response.WithCluster
      (response.WithResults (request.Execute_Response req (head.ret_code r) requestID)
         (head.ret_results r)) (head.ret_cluster r) in
    if IsSentinel err RollCallTimeout || IsSentinel err ExecutionNotEnoughNodes
    then response.SetErrorMessage res0 (Error text err)
    else res0).
  { unfold res, head.processExecute. rewrite Hv. cbv zeta. fold r.
    fold r in Herr. rewrite Herr. unfold Is.
    now destruct (head.Send _ _ _). }
  rewrite Hres. cbv zeta.
  destruct (IsSentinel err RollCallTimeout) eqn:H1;
    destruct (IsSentinel err ExecutionNotEnoughNodes) eqn:H2; simpl;
    intuition congruence.
Qed.

End HeadProperties.

(** ** The worker: cluster registry and result cache *)

Section WorkerProperties.

Import errors replica.

Context {M : Type} {registry : syncmap.Map M consensusExecutor}.

Variable peer_String : execute.PeerID → string.

(** [leaveCluster] gives up before it reaches [Delete] when [Shutdown]
    fails: worker and registry are returned as they were. *)
Lemma leaveCluster_shutdown_failed (w : worker.Worker M) (requestID : string)
    (cluster : consensusExecutor) (err : error) :
  syncmap.Get (worker.clusters w) requestID = Some cluster →
  Shutdown cluster = Some err →
  worker.leaveCluster w requestID =
    (w, Some (Errorf ("could not leave cluster (request: " +:+ requestID +:+ "): ") err)).
Proof. intros Hg Hs. unfold worker.leaveCluster. now rewrite Hg, Hs. Qed.

(** When [Shutdown] succeeds the registry is the old one after [Delete]. *)
Lemma leaveCluster_shutdown_done (w : worker.Worker M) (requestID : string)
    (cluster : consensusExecutor) :
  syncmap.Get (worker.clusters w) requestID = Some cluster →
  Shutdown cluster = None →
  worker.leaveCluster w requestID =
    (worker.mkWorker (syncmap.Delete (worker.clusters w) requestID)
       (worker.executeResponses w) (worker.sent w), None).
Proof. intros Hg Hs. unfold worker.leaveCluster. now rewrite Hg, Hs. Qed.

(** With the registry a plain map, as in package [node]: after
    [leaveCluster] the entry of the request is gone exactly when there was
    none or [Shutdown] succeeded. *)
Lemma node_leaveCluster_entry (w : node.Node) (requestID : string) :
  node.clusters (fst (node.leaveCluster w requestID)) !! requestID = None
  ↔ node.clusters w !! requestID = None
    ∨ ∃ cluster, node.clusters w !! requestID = Some cluster ∧ Shutdown cluster = None.
Proof.
  unfold node.leaveCluster.
  destruct (node.clusters w !! requestID) as [cluster|] eqn:Hg; simpl.
  - destruct (Shutdown cluster) as [err|] eqn:Hs; simpl.
    + rewrite Hg. split; [discriminate|].
      intros [?|(c & [= <-] & ?)]; congruence.
    + rewrite lookup_delete_eq. split; [|reflexivity]. intros _. right. eauto.
  - rewrite Hg. split; auto.
Qed.

(** C5, as amended. A FormCluster request whose request identifier is
    already in the registry is not rejected. When the replica can be
    created, the worker hands the new handle to the registry's Set under the
    request identifier and sends the reply with code OK; the only error it
    can return after that is the one of the transport, never an "already
    exists" one. With a registry that is a plain map, as package [node]
    has it, the new handle replaces the one that was registered. *)
Theorem createCluster_registers_again (env : worker.Env) (w : worker.Worker M)
    (nenv : node.Env) (n : node.Node)
    (from : execute.PeerID) (fc : request.FormCluster) (old rh : consensusExecutor) :
  let requestID := request.FormCluster_RequestID fc in
  let reply := response.mkFormCluster requestID codes.OK (request.FormCluster_Consensus fc) in
  syncmap.Get (worker.clusters w) requestID = Some old →
  node.clusters n !! requestID = Some old →
  (worker.raft_New env fc = inl rh →
   let w' := fst (worker.createRaftCluster env w from fc) in
   worker.clusters w' = syncmap.Set_ (worker.clusters w) requestID rh
   ∧ worker.sent w' = (worker.sent w ++ [(from, reply)])%list
   ∧ snd (worker.createRaftCluster env w from fc)
     = option_map (Errorf "could not send cluster confirmation message: ")
         (worker.Send env from reply))
  ∧ (worker.pbft_NewReplica env fc = inl rh →
     let w' := fst (worker.createPBFTCluster env w from fc) in
     worker.clusters w' = syncmap.Set_ (worker.clusters w) requestID rh
     ∧ worker.sent w' = (worker.sent w ++ [(from, reply)])%list
     ∧ snd (worker.createPBFTCluster env w from fc)
       = option_map (Errorf "could not send cluster confirmation message: ")
           (worker.Send env from reply))
  ∧ (node.raft_New nenv fc = inl rh →
     let n' := fst (node.createRaftCluster nenv n from fc) in
     node.clusters n' !! requestID = Some rh
     ∧ node.sent n' = (node.sent n ++ [(from, reply)])%list)
  ∧ (node.pbft_NewReplica nenv fc = inl rh →
     let n' := fst (node.createPBFTCluster nenv n from fc) in
     node.clusters n' !! requestID = Some rh
     ∧ node.sent n' = (node.sent n ++ [(from, reply)])%list).
Proof.
  intros requestID reply _ _.
  split; [|split; [|split]]; intros Hnew.
  - unfold worker.createRaftCluster. rewrite Hnew.
    unfold request.FormCluster_Response. fold requestID. fold reply.
    now destruct (worker.Send env from reply).
  - unfold worker.createPBFTCluster. rewrite Hnew.
    unfold request.FormCluster_Response. fold requestID. fold reply.
    now destruct (worker.Send env from reply).
  - unfold node.createRaftCluster. rewrite Hnew.
    destruct (node.Send _ _ _); simpl; (split; [apply lookup_insert_eq|reflexivity]).
  - unfold node.createPBFTCluster. rewrite Hnew.
    destruct (node.Send _ _ _); simpl; (split; [apply lookup_insert_eq|reflexivity]).
Qed.

(** C6, as amended. The head stores an inbound work order response under
    the key made of its request identifier, "/" and the printed identity of
    the sending peer. The cache callbacks of the worker's replicas store a
    result under the request identifier alone. Each of them writes one key
    per call, and nothing keeps a key from being written again: a second
    response of the same peer for the same request writes the same key. *)
Theorem wait_map_keys (h : head.HeadNode) (from : execute.PeerID)
    (res res' : response.WorkOrder) (w : worker.Worker M) (entry : FSMLogEntry)
    (fc : request.FormCluster) (requestID : string) (origin : execute.PeerID)
    (req : execute.Request) (result : execute.NodeResult) :
  let key := response.WorkOrder_RequestID res +:+ "/" +:+ peer_String from in
  let h1 := fst (head.processWorkOrderResponse peer_String h from res) in
  waitmap.writes (head.executeResponses h1) = (waitmap.writes (head.executeResponses h) ++ [key])%list
  ∧ waitmap.writes (worker.executeResponses (worker.createRaftCluster_cacheFn w entry result))
    = (waitmap.writes (worker.executeResponses w) ++ [RequestID entry])%list
  ∧ waitmap.writes
      (worker.executeResponses (worker.createPBFTCluster_cacheFn fc w requestID origin req result))
    = (waitmap.writes (worker.executeResponses w) ++ [request.FormCluster_RequestID fc])%list
  ∧ (response.WorkOrder_RequestID res' = response.WorkOrder_RequestID res →
     waitmap.writes
       (head.executeResponses (fst (head.processWorkOrderResponse peer_String h1 from res')))
     = (waitmap.writes (head.executeResponses h) ++ [key; key])%list).
Proof.
  intros key h1. repeat split.
  intros Heq. unfold h1, head.processWorkOrderResponse, head.executionResultKey. simpl.
  rewrite Heq. fold key. now rewrite <- app_assoc.
Qed.

End WorkerProperties.

(** ** The properties at concrete inputs *)

Lemma sample_mapRange_perm (V : Type) (m : gmap string V) :
  sample.mapRange V m ≡ₚ map_to_list m.
Proof. reflexivity. Qed.

Lemma sample_default_in_range :
  (0 <? sample.defaultExecutionThreshold)%float = true
  ∧ (sample.defaultExecutionThreshold <=? 1)%float = true.
Proof. split; reflexivity. Qed.

(** One of three peers replies before the deadline, with threshold 0.5: the
    overall code is PartialContent and the one result is returned. *)
Lemma execute_scoring_witness :
  let peers := ["p1"; "p2"; "p3"] in
  let results : execute.ResultMap := {["p2" := sample.result codes.OK]} in
  let h := sample.headNode consensus.NoConsensus in
  let env := sample.env peers results in
  let req := sample.request "" 0.5%float in
  let r := head.execute sample.defaultExecutionThreshold node.parseConsensusAlgorithm
             sample.mapRange h env "req-1" req "" in
  head.consensusOf node.parseConsensusAlgorithm h req ≠ consensus.PBFT
  ∧ head.dispatched node.parseConsensusAlgorithm h env "req-1" req "" peers
  ∧ head.ret_code r = codes.PartialContent
  ∧ head.ret_results r = results.
Proof.
  intros peers results h env req r.
  assert (H1 : head.consensusOf node.parseConsensusAlgorithm h req ≠ consensus.PBFT)
    by (vm_compute; discriminate).
  assert (H2 : head.dispatched node.parseConsensusAlgorithm h env "req-1" req "" peers)
    by (repeat split; intros; reflexivity).
  split; [exact H1|]. split; [exact H2|].
  destruct (execute_scoring sample.defaultExecutionThreshold node.parseConsensusAlgorithm
              sample.mapRange h env "req-1" req "" peers H1 H2
              ltac:(vm_compute; lia) ltac:(vm_compute; reflexivity) ltac:(vm_compute; lia))
    as (Hres & _ & _ & Hpartial & _).
  split; [|exact Hres].
  apply Hpartial; [vm_compute; lia|vm_compute; reflexivity].
Defined.

(** C1, the claim as stated fails: two peers are selected, both reply and
    both report Error, so that the ratio 1 is above the threshold 0.5 and no
    peer that replied returned OK; the overall code is OK, not Error. *)
Lemma execute_scoring_counterexample :
  let peers := ["p1"; "p2"] in
  let results : execute.ResultMap :=
    <["p1" := sample.result codes.Error]> {["p2" := sample.result codes.Error]} in
  let req := sample.request "" 0.5%float in
  let r := head.execute sample.defaultExecutionThreshold node.parseConsensusAlgorithm
             sample.mapRange (sample.headNode consensus.NoConsensus)
             (sample.env peers results) "req-1" req "" in
  size results = 2%nat
  ∧ results !! "p1" = Some (sample.result codes.Error)
  ∧ results !! "p2" = Some (sample.result codes.Error)
  ∧ (head.determineThreshold sample.defaultExecutionThreshold req
       <=? head.respondRatio (size results) (length peers))%float = true
  ∧ head.ret_results r = results
  ∧ head.ret_code r = codes.OK
  ∧ head.ret_code r ≠ codes.Error.
Proof.
  intros peers results req r. repeat split; try (vm_compute; reflexivity).
  vm_compute. discriminate.
Qed.

(** A single peer reports Error: the overall code is OK. *)
Lemma execute_single_peer_witness :
  let res := sample.result codes.Error in
  let h := sample.headNode consensus.NoConsensus in
  let env := sample.env ["p1"] {["p1" := res]} in
  let req := sample.request "" 1%float in
  head.dispatched node.parseConsensusAlgorithm h env "req-1" req "" ["p1"]
  ∧ head.ret_code (head.execute sample.defaultExecutionThreshold node.parseConsensusAlgorithm
                     sample.mapRange h env "req-1" req "") = codes.OK
  ∧ node.determineOverallCode sample.mapRange {["p1" := execute.Result_ res]} = codes.Error.
Proof.
  intros res h env req.
  assert (H1 : head.consensusOf node.parseConsensusAlgorithm h req ≠ consensus.PBFT)
    by (vm_compute; discriminate).
  assert (H2 : head.dispatched node.parseConsensusAlgorithm h env "req-1" req "" ["p1"])
    by (repeat split; intros; reflexivity).
  split; [exact H2|].
  destruct (execute_single_peer sample.defaultExecutionThreshold node.parseConsensusAlgorithm
              sample.mapRange sample_mapRange_perm sample_default_in_range
              h env "req-1" req "" "p1" res H1 H2 eq_refl)
    as (Hcode & _ & Hlegacy).
  split; [exact Hcode|exact Hlegacy].
Defined.

(** C2, the claim as stated fails: the single selected peer reports a result
    with code Error, and the overall code is OK. *)
Lemma execute_single_peer_counterexample :
  let res := sample.result codes.Error in
  let r := head.execute sample.defaultExecutionThreshold node.parseConsensusAlgorithm
             sample.mapRange (sample.headNode consensus.NoConsensus)
             (sample.env ["p1"] {["p1" := res]}) "req-1" (sample.request "" 0.5%float) "" in
  head.ret_cluster r = execute.mkCluster ["p1"]
  ∧ head.ret_results r !! "p1" = Some res
  ∧ execute.NodeResult_Code res = codes.Error
  ∧ head.ret_code r = codes.OK
  ∧ head.ret_code r ≠ execute.NodeResult_Code res.
Proof.
  intros res r. repeat split; try (vm_compute; reflexivity).
  vm_compute. discriminate.
Qed.

(** C3, the claim as stated fails: the consensus algorithm "paxos" is not
    accepted by the parser, and yet the head, whose default is no consensus,
    runs the request and answers with code OK, without an error and without
    an error message. *)
Lemma parseConsensusAlgorithm_counterexample :
  let req := sample.request "paxos" 0.5%float in
  let h := sample.headNode consensus.NoConsensus in
  let env := sample.env ["p1"] {["p1" := sample.result codes.OK]} in
  let r := head.execute sample.defaultExecutionThreshold node.parseConsensusAlgorithm
             sample.mapRange h env "req-1" req "" in
  let res := fst (head.processExecute sample.defaultExecutionThreshold
                    node.parseConsensusAlgorithm sample.mapRange sample.text h env
                    "client" (request.mkExecute req "") "req-1") in
  node.parseConsensusAlgorithm "paxos"
    = (consensus.NoConsensus, Some (errors.New "unknown consensus value (paxos)"))
  ∧ head.ret_err r = None
  ∧ head.ret_code r = codes.OK
  ∧ response.Execute_Code res = codes.OK
  ∧ response.Execute_ErrorMessage res = "".
Proof. intros req h env r res. repeat split; vm_compute; reflexivity. Qed.

(** Three replicas of a PBFT cluster of four send back the agreed result,
    whose code is Error: that is the code [execute] returns. *)
Lemma execute_PBFT_code_witness :
  let peers := ["p1"; "p2"; "p3"; "p4"] in
  let agreed := sample.result codes.Error in
  let results : execute.ResultMap :=
    <["p1" := agreed]> (<["p2" := agreed]> {["p3" := agreed]}) in
  let h := sample.headNode consensus.NoConsensus in
  let env := sample.env peers results in
  let req := sample.request "PBFT" 0%float in
  let r := head.execute sample.defaultExecutionThreshold node.parseConsensusAlgorithm
             sample.mapRange h env "req-1" req "" in
  head.consensusOf node.parseConsensusAlgorithm h req = consensus.PBFT
  ∧ head.dispatched node.parseConsensusAlgorithm h env "req-1" req "" peers
  ∧ head.ret_code r = codes.Error
  ∧ head.ret_results r = results.
Proof.
  intros peers agreed results h env req r.
  assert (H1 : head.consensusOf node.parseConsensusAlgorithm h req = consensus.PBFT)
    by (vm_compute; reflexivity).
  assert (H2 : head.dispatched node.parseConsensusAlgorithm h env "req-1" req "" peers)
    by (repeat split; intros; reflexivity).
  assert (H3 : head.gatherExecutionResultsPBFT env "req-1" peers ≠ ∅).
  { intros Heq. apply (f_equal (λ m : execute.ResultMap, m !! "p1")) in Heq.
    vm_compute in Heq. discriminate Heq. }
  split; [exact H1|]. split; [exact H2|].
  destruct (execute_PBFT_code sample.defaultExecutionThreshold node.parseConsensusAlgorithm
              sample.mapRange sample_mapRange_perm h env "req-1" req "" peers H1 H2 H3)
    as (_ & Hres & _ & _ & Hall).
  split; [|exact Hres].
  apply Hall. intros p res Hp.
  change (head.gatherExecutionResultsPBFT env "req-1" peers) with results in Hp.
  unfold results in Hp.
  repeat (apply lookup_insert_Some in Hp as [[_ <-]|[_ Hp]]; [reflexivity|]).
  apply lookup_singleton_Some in Hp as [_ <-]. reflexivity.
Defined.

(** No replica of a PBFT cluster sends a result back: [execute] returns OK
    and an empty result map. *)
Lemma execute_PBFT_no_result_witness :
  let peers := ["p1"; "p2"; "p3"; "p4"] in
  let h := sample.headNode consensus.PBFT in
  let env := sample.env peers ∅ in
  let req := sample.request "pbft" 0%float in
  let r := head.execute sample.defaultExecutionThreshold node.parseConsensusAlgorithm
             sample.mapRange h env "req-1" req "" in
  head.consensusOf node.parseConsensusAlgorithm h req = consensus.PBFT
  ∧ head.dispatched node.parseConsensusAlgorithm h env "req-1" req "" peers
  ∧ head.ret_code r = codes.OK ∧ head.ret_results r = ∅ ∧ head.ret_err r = None.
Proof.
  intros peers h env req r.
  assert (H1 : head.consensusOf node.parseConsensusAlgorithm h req = consensus.PBFT)
    by (vm_compute; reflexivity).
  assert (H2 : head.dispatched node.parseConsensusAlgorithm h env "req-1" req "" peers)
    by (repeat split; intros; reflexivity).
  split; [exact H1|]. split; [exact H2|].
  exact (execute_PBFT_no_result sample.defaultExecutionThreshold node.parseConsensusAlgorithm
           sample.mapRange sample_mapRange_perm h env "req-1" req "" peers H1 H2 eq_refl).
Defined.

(** The roll call times out, and the collaborator wraps the sentinel: the
    response carries the code Timeout and the text of the error. *)
Lemma processExecute_ErrorMessage_witness :
  let inner := errors.Errorf "roll call: " errors.ErrRollCallTimeout in
  let h := sample.headNode consensus.NoConsensus in
  let env := sample.env_rollcall inner in
  let req := request.mkExecute (sample.request "" 0.5%float) "" in
  let res := fst (head.processExecute sample.defaultExecutionThreshold
                    node.parseConsensusAlgorithm sample.mapRange sample.text h env
                    "client" req "req-1") in
  head.Valid env req = None
  ∧ response.Execute_Code res = codes.Timeout
  ∧ response.Execute_ErrorMessage res
    = "could not roll call peers (request: req-1): roll call: roll call timed out".
Proof.
  intros inner h env req res.
  split; [reflexivity|].
  destruct (processExecute_ErrorMessage sample.defaultExecutionThreshold
              node.parseConsensusAlgorithm sample.mapRange sample.text h env "client" req "req-1"
              (errors.Errorf "could not roll call peers (request: req-1): " inner)
              eq_refl eq_refl)
    as (Hcode & Hset & _).
  split; [exact Hcode|].
  destruct (Hset (or_introl eq_refl)) as [Hmsg _]. exact Hmsg.
Defined.

(** C4, the failing input: the registry holds for "req-1" a replica whose
    [Shutdown] returns an error. [leaveCluster] returns that error wrapped
    and leaves worker and registry as they were, so that the registry still
    holds the entry of "req-1"; a second [leaveCluster] finds it again. This
    holds for package [node], with its plain map, and for package [worker],
    here with a registry whose [Get], [Set] and [Delete] are those of a
    map. *)
Theorem leaveCluster_Shutdown_error_keeps_entry :
  let stuck := sample.replica_stuck 1 in
  let n := node.mkNode {["req-1" := stuck]} waitmap.New [] in
  let w : worker.Worker (gmap string replica.consensusExecutor) :=
    worker.mkWorker {["req-1" := stuck]} waitmap.New [] in
  let leave := worker.leaveCluster (registry := syncmap.overwriting _) in
  node.leaveCluster n "req-1"
    = (n, Some (errors.Errorf "could not leave cluster (request: req-1): "
                  (errors.New "raft shutdown failed")))
  ∧ node.clusters (fst (node.leaveCluster n "req-1")) !! "req-1" = Some stuck
  ∧ leave w "req-1"
    = (w, Some (errors.Errorf "could not leave cluster (request: req-1): "
                  (errors.New "raft shutdown failed")))
  ∧ worker.clusters (fst (leave w "req-1")) !! "req-1" = Some stuck
  ∧ worker.clusters (fst (leave (fst (leave w "req-1")) "req-1")) !! "req-1" = Some stuck.
Proof. intros stuck n w leave. repeat split; vm_compute; reflexivity. Qed.

(** The same request with a replica whose [Shutdown] succeeds: the entry is
    gone, and a second [leaveCluster] reports that there is no such
    cluster. *)
Lemma leaveCluster_Shutdown_ok_drops_entry :
  let n := node.mkNode {["req-1" := sample.replica_ok 1]} waitmap.New [] in
  let w : worker.Worker (gmap string replica.consensusExecutor) :=
    worker.mkWorker {["req-1" := sample.replica_ok 1]} waitmap.New [] in
  let leave := worker.leaveCluster (registry := syncmap.overwriting _) in
  node.clusters (fst (node.leaveCluster n "req-1")) !! "req-1" = None
  ∧ snd (node.leaveCluster n "req-1") = None
  ∧ worker.clusters (fst (leave w "req-1")) !! "req-1" = None
  ∧ snd (leave (fst (leave w "req-1")) "req-1")
    = Some (errors.New "no cluster with that ID").
Proof. intros n w leave. repeat split; vm_compute; reflexivity. Qed.

(** A second FormCluster for "req-1" reaches a worker and a node that hold
    replica 1 for it, and the consensus library hands out replica 2: the
    reply is OK, and the registry holds replica 2. *)
Lemma createCluster_registers_again_witness :
  let fc := sample.formCluster "req-1" consensus.Raft in
  let reply := response.mkFormCluster "req-1" codes.OK consensus.Raft in
  let w : worker.Worker (gmap string replica.consensusExecutor) :=
    worker.mkWorker {["req-1" := sample.replica_ok 1]} waitmap.New [] in
  let n := node.mkNode {["req-1" := sample.replica_ok 1]} waitmap.New [] in
  let create := worker.createRaftCluster (registry := syncmap.overwriting _) in
  let w' := fst (create (sample.worker_env (sample.replica_ok 2)) w "head" fc) in
  let n' := fst (node.createRaftCluster (sample.node_env (sample.replica_ok 2)) n "head" fc) in
  worker.clusters w !! "req-1" = Some (sample.replica_ok 1)
  ∧ node.clusters n !! "req-1" = Some (sample.replica_ok 1)
  ∧ worker.clusters w' = <["req-1" := sample.replica_ok 2]> (worker.clusters w)
  ∧ worker.sent w' = [("head", reply)]
  ∧ node.clusters n' !! "req-1" = Some (sample.replica_ok 2)
  ∧ node.sent n' = [("head", reply)].
Proof.
  intros fc reply w n create w' n'.
  assert (H1 : syncmap.Get (Map := syncmap.overwriting _) (worker.clusters w)
                 (request.FormCluster_RequestID fc) = Some (sample.replica_ok 1))
    by (vm_compute; reflexivity).
  assert (H2 : node.clusters n !! request.FormCluster_RequestID fc
               = Some (sample.replica_ok 1))
    by (vm_compute; reflexivity).
  split; [exact H1|]. split; [exact H2|].
  destruct (createCluster_registers_again (registry := syncmap.overwriting _)
              (sample.worker_env (sample.replica_ok 2)) w
              (sample.node_env (sample.replica_ok 2)) n "head" fc
              (sample.replica_ok 1) (sample.replica_ok 2) H1 H2)
    as (Hraft & _ & Hnode & _).
  destruct (Hraft eq_refl) as (Hc & Hs & _).
  destruct (Hnode eq_refl) as (Hnc & Hns).
  split; [exact Hc|]. split; [exact Hs|]. split; [exact Hnc|exact Hns].
Defined.

(** C5, the claim as stated fails: "req-1" is in the registry with replica
    1 when a FormCluster for "req-1" arrives. The worker returns no error,
    the reply it sends carries the code OK, and with a registry that is a
    map the entry of "req-1" is replica 2; with a registry whose Set rejects
    a known key the entry stays replica 1, and the reply is OK all the
    same. *)
Lemma createCluster_counterexample :
  let fc := sample.formCluster "req-1" consensus.Raft in
  let w : worker.Worker (gmap string replica.consensusExecutor) :=
    worker.mkWorker {["req-1" := sample.replica_ok 1]} waitmap.New [] in
  let env := sample.worker_env (sample.replica_ok 2) in
  let by_map := worker.createRaftCluster (registry := syncmap.overwriting _) env w "head" fc in
  let by_spec := worker.createRaftCluster (registry := syncmap.rejecting _) env w "head" fc in
  worker.clusters w !! "req-1" = Some (sample.replica_ok 1)
  ∧ snd by_map = None
  ∧ worker.sent (fst by_map) = [("head", response.mkFormCluster "req-1" codes.OK consensus.Raft)]
  ∧ worker.clusters (fst by_map) !! "req-1" = Some (sample.replica_ok 2)
  ∧ snd by_spec = None
  ∧ worker.sent (fst by_spec) = [("head", response.mkFormCluster "req-1" codes.OK consensus.Raft)]
  ∧ worker.clusters (fst by_spec) !! "req-1" = Some (sample.replica_ok 1).
Proof. intros fc w env by_map by_spec. repeat split; vm_compute; reflexivity. Qed.

(** C6, the claim as stated fails: the cache callback of a worker's raft
    replica stores the result of "req-1" under the key "req-1", which is not
    a request identifier followed by "/" and a peer identity; and the head
    writes the key "req-1/p1" twice when the response of "p1" arrives
    twice. *)
Lemma wait_map_keys_counterexample :
  let entry := replica.mkFSMLogEntry "req-1" "head" (sample.request "raft" 0%float) in
  let w : worker.Worker (gmap string replica.consensusExecutor) :=
    worker.mkWorker ∅ waitmap.New [] in
  let w' := worker.createRaftCluster_cacheFn w entry (sample.result codes.OK) in
  let msg := response.mkWorkOrder codes.OK "req-1" (sample.result codes.OK) in
  let h := sample.headNode consensus.NoConsensus in
  let h1 := fst (head.processWorkOrderResponse sample.peer_String h "p1" msg) in
  let h2 := fst (head.processWorkOrderResponse sample.peer_String h1 "p1" msg) in
  waitmap.writes (worker.executeResponses w') = ["req-1"]
  ∧ (∀ requestID peer : string, "req-1" ≠ requestID +:+ "/" +:+ peer)
  ∧ waitmap.writes (head.executeResponses h2) = ["req-1/p1"; "req-1/p1"].
Proof.
  intros entry w w' msg h h1 h2. split; [reflexivity|]. split; [|reflexivity].
  intros requestID peer Heq.
  repeat (destruct requestID as [|? requestID]; simpl in Heq;
          [discriminate Heq|injection Heq as ? Heq]).
  destruct requestID; discriminate Heq.
Qed.

(** * Further properties of the code *)

(** ** [float64]: a length divided by itself *)

Module float64_ratio.

Open Scope Z_scope.

Lemma SFdiv_core_binary_self (m : positive) (e : Z) :
  SFdiv_core_binary prec emax (Zpos m) e (Zpos m) e = (2 ^ 53, -53, loc_Exact).
Proof.
  unfold SFdiv_core_binary.
  replace (Zdigits2 (Zpos m) + e - (Zdigits2 (Zpos m) + e)) with 0 by lia.
  replace (e - e) with 0 by lia.
  change (Z.min (fexp prec emax 0) 0) with (-53).
  change (0 - -53) with 53.
  cbv iota beta.
  assert (Hq : Z.shiftl (Zpos m) 53 / Zpos m = 2 ^ 53).
  { rewrite Z.shiftl_mul_pow2 by lia. rewrite Z.mul_comm. apply Z.div_mul. lia. }
  assert (Hr : Z.shiftl (Zpos m) 53 mod Zpos m = 0).
  { rewrite Z.shiftl_mul_pow2 by lia. rewrite Z.mul_comm. apply Z.mod_mul. lia. }
  unfold Z.div in Hq. unfold Z.modulo in Hr.
  destruct (Z.div_eucl (Z.shiftl (Zpos m) 53) (Zpos m)) as [q r].
  subst q r. f_equal.
  unfold new_location. destruct (Z.even (Zpos m)); reflexivity.
Qed.

(** Every peer replied: the response ratio is exactly one. *)
Lemma of_int_div_self (n : Z) :
  0 < n < 2 ^ 63 → (float64.of_int n / float64.of_int n)%float = 1%float.
Proof.
  intros Hn. apply FloatAxioms.Prim2SF_inj.
  destruct (float64_facts.Prim2SF_of_int n Hn) as (m & e & E & _).
  rewrite FloatAxioms.div_spec, E.
  unfold SF64div, SFdiv. rewrite SFdiv_core_binary_self. reflexivity.
Qed.

End float64_ratio.

(** ** The head node: how [execute] and [processExecute] end *)

Section HeadFurther.

Import errors.

Variable defaultExecutionThreshold : float.
Variable consensus_Parse : string → consensus.Type_ * option error.
Variable mapRange : ∀ V : Type, gmap string V → list (string * V).
Variable text : Sentinel → string.

Hypothesis mapRange_perm : ∀ (V : Type) (m : gmap string V), mapRange V m ≡ₚ map_to_list m.

Hypothesis default_in_range :
  (0 <? defaultExecutionThreshold)%float = true
  ∧ (defaultExecutionThreshold <=? 1)%float = true.

Abbreviation execute := (head.execute defaultExecutionThreshold consensus_Parse mapRange).
Abbreviation processExecute :=
  (head.processExecute defaultExecutionThreshold consensus_Parse mapRange text).
Abbreviation determineThreshold := (head.determineThreshold defaultExecutionThreshold).
Abbreviation consensusOf := (head.consensusOf consensus_Parse).
Abbreviation dispatched := (head.dispatched consensus_Parse).
Abbreviation rollCall h env requestID req subgroup :=
  (head.executeRollCall env requestID (execute.FunctionID req) (head.nodeCountOf req)
     (consensusOf h req) subgroup).

(** X1. When [execute] returns an error it returns no results, and its code
    is Timeout or Error: Timeout exactly when it is the roll call that
    failed, with an error that is or wraps RollCallTimeout. *)
Theorem execute_failure_shape (h : head.HeadNode) (env : head.Env) (requestID : string)
    (req : execute.Request) (subgroup : string) (err : error) :
  head.ret_err (execute h env requestID req subgroup) = Some err →
  let r := execute h env requestID req subgroup in
  head.ret_results r = ∅
  ∧ (head.ret_code r = codes.Timeout ∨ head.ret_code r = codes.Error)
  ∧ (head.ret_code r = codes.Timeout ↔
     ∃ e, snd (rollCall h env requestID req subgroup) = Some e
          ∧ IsSentinel e RollCallTimeout = true).
Proof.
  clear mapRange_perm default_in_range.
  unfold head.execute, head.consensusOf, head.nodeCountOf. cbv zeta.
  destruct (head.executeRollCall _ _ _ _ _ _) as [peers [e|]]; simpl.
  { intros _. split; [reflexivity|].
    destruct (IsSentinel e RollCallTimeout) eqn:Hs.
    - split; [now left|]. split; [eauto|reflexivity].
    - split; [now right|]. split; [discriminate|].
      intros (e' & [= <-] & He'). congruence. }
  assert (Hno : ¬ ∃ e : error, None = Some e ∧ IsSentinel e RollCallTimeout = true).
  { intros (e & He & _). discriminate He. }
  destruct (if head.consensusRequired _ then _ else None) as [e|]; simpl.
  { intros _. split; [reflexivity|]. split; [now right|]. split; [discriminate|tauto]. }
  destruct (if bool_decide _ then head.Sign env req else None) as [e|]; simpl.
  { intros _. split; [reflexivity|]. split; [now right|]. split; [discriminate|tauto]. }
  destruct (head.SendToMany _ _ _ _) as [e|]; simpl.
  { intros _. split; [reflexivity|]. split; [now right|]. split; [discriminate|tauto]. }
  destruct (bool_decide _); simpl; discriminate.
Qed.

(** X2. [execute] returns a nil error exactly when the roll call, the
    cluster formation (if consensus is needed), the signature (for PBFT) and
    the dispatch of the work order all went through, however few results
    arrive afterwards. Without PBFT its code is then OK, NoContent or
    PartialContent, and the cluster it returns is the one the roll call
    selected. *)
Theorem execute_nil_error_iff_dispatched (h : head.HeadNode) (env : head.Env)
    (requestID : string) (req : execute.Request) (subgroup : string) :
  let r := execute h env requestID req subgroup in
  (head.ret_err r = None ↔ ∃ peers, dispatched h env requestID req subgroup peers)
  ∧ (head.ret_err r = None →
     head.ret_cluster r = execute.mkCluster (fst (rollCall h env requestID req subgroup)))
  ∧ (head.ret_err r = None → consensusOf h req ≠ consensus.PBFT →
     head.ret_code r = codes.OK ∨ head.ret_code r = codes.NoContent
     ∨ head.ret_code r = codes.PartialContent).
Proof.
  clear mapRange_perm default_in_range.
  intros r.
  assert (Hfwd : head.ret_err r = None →
            dispatched h env requestID req subgroup (fst (rollCall h env requestID req subgroup))).
  { unfold r, head.execute, head.dispatched, head.consensusOf, head.nodeCountOf. cbv zeta.
    destruct (head.executeRollCall _ _ _ _ _ _) as [peers [e|]]; simpl; [discriminate|].
    destruct (head.consensusRequired _) eqn:Hreq; simpl.
    - destruct (head.formCluster _ _ _ _) as [e|] eqn:Hform; simpl; [discriminate|].
      case_bool_decide as Hp; simpl.
      + destruct (head.Sign env req) as [e|] eqn:Hsign; simpl; [discriminate|].
        destruct (head.SendToMany _ _ _ _) as [e|] eqn:Hsend; simpl; [discriminate|].
        intros _. repeat split; auto.
      + destruct (head.SendToMany _ _ _ _) as [e|] eqn:Hsend; simpl; [discriminate|].
        intros _. repeat split; auto; congruence.
    - case_bool_decide as Hp; simpl.
      + destruct (head.Sign env req) as [e|] eqn:Hsign; simpl; [discriminate|].
        destruct (head.SendToMany _ _ _ _) as [e|] eqn:Hsend; simpl; [discriminate|].
        intros _. repeat split; auto; discriminate.
      + destruct (head.SendToMany _ _ _ _) as [e|] eqn:Hsend; simpl; [discriminate|].
        intros _. repeat split; auto; try discriminate; congruence. }
  split; [|split].
  - split; [eauto|]. intros (peers & Hd).
    unfold r. rewrite (execute_dispatched _ _ _ _ _ _ _ _ _ Hd). cbv zeta.
    now destruct (bool_decide _).
  - intros Hnil. unfold r. rewrite (execute_dispatched _ _ _ _ _ _ _ _ _ (Hfwd Hnil)). cbv zeta.
    now destruct (bool_decide _).
  - intros Hnil Hnp. unfold r. rewrite (execute_dispatched _ _ _ _ _ _ _ _ _ (Hfwd Hnil)).
    cbv zeta. rewrite bool_decide_eq_false_2 by assumption. simpl.
    destruct (_ =? _)%float; [auto|]. destruct (_ <? _)%float; auto.
Qed.

(** X3. The disband message is arranged exactly when the roll call went
    through, consensus is needed and the cluster was formed; it then goes to
    the peers the roll call selected, whether signing, dispatch and
    aggregation succeed or not. A failed cluster formation arranges none. *)
Theorem execute_disband (h : head.HeadNode) (env : head.Env) (requestID : string)
    (req : execute.Request) (subgroup : string) :
  let r := execute h env requestID req subgroup in
  let algo := consensusOf h req in
  let roll := rollCall h env requestID req subgroup in
  let formed :=
    snd roll = None ∧ head.consensusRequired algo = true
    ∧ head.formCluster env requestID (fst roll) algo = None in
  (formed → head.ret_disband r = Some (requestID, fst roll))
  ∧ (¬ formed → head.ret_disband r = None)
  ∧ (head.ret_disband r ≠ None → head.ret_cluster r = execute.mkCluster (fst roll)).
Proof.
  clear mapRange_perm default_in_range.
  unfold head.execute, head.consensusOf, head.nodeCountOf. cbv zeta.
  destruct (head.executeRollCall _ _ _ _ _ _) as [peers [e|]]; simpl.
  { split; [intros [? _]; discriminate|]. split; [reflexivity|congruence]. }
  destruct (head.consensusRequired _) eqn:Hreq; simpl.
  - destruct (head.formCluster _ _ _ _) as [e|] eqn:Hform; simpl.
    { split; [intros (_ & _ & ?); discriminate|]. split; [reflexivity|congruence]. }
    destruct (if bool_decide _ then head.Sign env req else None) as [e|]; simpl;
      [|destruct (head.SendToMany _ _ _ _) as [e|]; simpl; [|destruct (bool_decide _); simpl]];
      (split; [reflexivity|]); (split; [intros Hn; exfalso; apply Hn; auto|reflexivity]).
  - destruct (if bool_decide _ then head.Sign env req else None) as [e|]; simpl;
      [|destruct (head.SendToMany _ _ _ _) as [e|]; simpl; [|destruct (bool_decide _); simpl]];
      (split; [intros (_ & ? & _); discriminate|]); (split; [reflexivity|congruence]).
Qed.

(** X4. Without PBFT, when every selected peer replies the overall code is
    OK, whatever the threshold of the request. *)
Theorem execute_all_replied (h : head.HeadNode) (env : head.Env) (requestID : string)
    (req : execute.Request) (subgroup : string) (peers : list execute.PeerID) :
  consensusOf h req ≠ consensus.PBFT →
  dispatched h env requestID req subgroup peers →
  (0 < length peers)%nat →
  (Z.of_nat (length peers) < 2 ^ 63)%Z →
  size (head.gatherExecutionResults env requestID peers) = length peers →
  head.ret_code (execute h env requestID req subgroup) = codes.OK.
Proof.
  clear mapRange_perm.
  intros Hnp Hd Hpos Hlen Hall.
  rewrite (execute_dispatched _ _ _ _ _ _ _ _ _ Hd). cbv zeta.
  rewrite bool_decide_eq_false_2 by assumption. simpl.
  rewrite Hall. unfold head.respondRatio.
  rewrite float64_ratio.of_int_div_self by lia.
  replace (1 =? 0)%float with false by (vm_compute; reflexivity).
  destruct (determineThreshold_in_range _ default_in_range req) as [_ Hle].
  now rewrite (float64_facts.leb_ltb_false _ _ Hle).
Qed.

(** X5. When the default threshold lies in (0, 1], so does the effective
    threshold of every request: a configured value outside that interval
    never reaches the comparison with the response ratio. *)
Theorem determineThreshold_range (req : execute.Request) :
  (0 <? determineThreshold req)%float = true
  ∧ (determineThreshold req <=? 1)%float = true
  ∧ (determineThreshold req =? determineThreshold req)%float = true.
Proof.
  clear mapRange_perm.
  destruct (determineThreshold_in_range _ default_in_range req) as [Hpos Hle].
  split; [assumption|]. split; [assumption|].
  destruct (determineThreshold req =? determineThreshold req)%float eqn:Hnan; [reflexivity|].
  rewrite (float64_facts.nan_ltb_false _ Hnan) in Hpos. discriminate.
Qed.

(** X6. The error [processExecute] returns is the error of the final [Send],
    wrapped, and nothing else: a failed execution is reported to the client
    in the response and does not make the handler fail. For a valid request
    the response carries the minted request identifier and the code,
    results and cluster [execute] returned, with an empty error message when
    the execution succeeded; for a request that is not valid it carries the
    code Invalid, no request identifier and the text of the validation
    error. *)
Theorem processExecute_response (h : head.HeadNode) (env : head.Env)
    (from : execute.PeerID) (req : request.Execute) (requestID : string) :
  let out := processExecute h env from req requestID in
  let r := execute h env requestID (request.Execute_Request req) (request.Execute_Topic req) in
  snd out = option_map (Errorf "could not send response: ") (head.Send env from (fst out))
  ∧ (head.Valid env req = None →
     response.Execute_RequestID (fst out) = requestID
     ∧ response.Execute_Code (fst out) = head.ret_code r
     ∧ response.Execute_Results (fst out) = head.ret_results r
     ∧ response.Execute_Cluster (fst out) = head.ret_cluster r
     ∧ (head.ret_err r = None → response.Execute_ErrorMessage (fst out) = ""))
  ∧ (∀ verr, head.Valid env req = Some verr →
     fst out = response.mkExecute codes.Invalid "" ∅ (execute.mkCluster []) (Error text verr)).
Proof.
  clear mapRange_perm default_in_range.
  intros out r.
  assert (Haux : ∀ X : response.Execute,
    let o := match head.Send env from X with
             | Some e => (X, Some (Errorf "could not send response: " e))
             | None => (X, None)
             end in
    fst o = X
    ∧ snd o = option_map (Errorf "could not send response: ") (head.Send env from (fst o))).
  { intros X. destruct (head.Send env from X) eqn:E; simpl; now rewrite E. }
  unfold out, head.processExecute.
  destruct (head.Valid env req) as [verr|]; cbv zeta.
  - set (X := response.SetErrorMessage _ _).
    destruct (Haux X) as [H1 H2]. cbv zeta in H1, H2.
    split; [exact H2|]. split; [discriminate|].
    intros ? [= <-]. now rewrite H1.
  - fold r.
    set (X := match head.ret_err r with Some _ => _ | None => _ end).
    destruct (Haux X) as [H1 H2]. cbv zeta in H1, H2.
    split; [exact H2|]. split; [|discriminate].
    intros _. rewrite H1. unfold X.
    destruct (head.ret_err r) as [e|]; simpl.
    + destruct (IsSentinel e RollCallTimeout || IsSentinel e ExecutionNotEnoughNodes);
        simpl; repeat split; discriminate.
    + repeat split.
Qed.

End HeadFurther.

(** ** Package [node]: the overall code of a set of results *)

Section OverallCode.

Variable mapRange : ∀ V : Type, gmap string V → list (string * V).

Hypothesis mapRange_perm : ∀ (V : Type) (m : gmap string V), mapRange V m ≡ₚ map_to_list m.

Lemma existsb_Permutation {A : Type} (f : A → bool) (l1 l2 : list A) :
  l1 ≡ₚ l2 → existsb f l1 = existsb f l2.
Proof.
  induction 1 as [|x l1 l2 _ IH|x y l|l1 l2 l3 _ IH1 _ IH2]; simpl.
  - reflexivity.
  - now rewrite IH.
  - destruct (f x), (f y); reflexivity.
  - now rewrite IH1.
Qed.

Lemma map_size_one_singleton {V : Type} (m : gmap string V) :
  size m = 1%nat → ∃ k v, m = {[k := v]}.
Proof.
  intros Hs. rewrite <- length_map_to_list in Hs.
  destruct (map_to_list m) as [|[k v] [|? ?]] eqn:Hl; try discriminate Hs.
  exists k, v. rewrite <- (list_to_map_to_list m), Hl. simpl. apply insert_empty.
Qed.

Lemma existsb_mapRange_OK (results : gmap string execute.Result) :
  existsb (λ kv, codes.eqb (execute.Code (snd kv)) codes.OK) (mapRange _ results) = true
  ↔ ∃ k res, results !! k = Some res ∧ execute.Code res = codes.OK.
Proof.
  rewrite existsb_exists. split.
  - intros ([k res] & Hin & Hok). exists k, res. split.
    + apply (mapRange_lookup mapRange mapRange_perm). now apply list_elem_of_In.
    + simpl in Hok. unfold codes.eqb in Hok. now apply bool_decide_eq_true in Hok.
  - intros (k & res & Hl & Hok). exists (k, res). split.
    + apply list_elem_of_In. now apply (mapRange_lookup mapRange mapRange_perm).
    + simpl. unfold codes.eqb. now apply bool_decide_eq_true.
Qed.

(** X7. [determineOverallCode] is decided by the content of the map, not by
    the order in which Go enumerates it: NoContent for no result, the code
    of the result when there is one, and for two results or more OK when
    some result carries OK and Error when none does. *)
Theorem determineOverallCode_by_content (results : gmap string execute.Result) :
  (results = ∅ → node.determineOverallCode mapRange results = codes.NoContent)
  ∧ (∀ k res, results = {[k := res]} →
       node.determineOverallCode mapRange results = execute.Code res)
  ∧ ((2 ≤ size results)%nat →
       (node.determineOverallCode mapRange results = codes.OK
        ↔ ∃ k res, results !! k = Some res ∧ execute.Code res = codes.OK)
       ∧ (node.determineOverallCode mapRange results = codes.Error
          ↔ ∀ k res, results !! k = Some res → execute.Code res ≠ codes.OK))
  ∧ (∀ mapRange' : ∀ V : Type, gmap string V → list (string * V),
       (∀ (V : Type) (m : gmap string V), mapRange' V m ≡ₚ map_to_list m) →
       node.determineOverallCode mapRange' results
       = node.determineOverallCode mapRange results).
Proof.
  split; [|split; [|split]].
  - intros ->. unfold node.determineOverallCode. now rewrite map_size_empty.
  - intros k res ->. unfold node.determineOverallCode.
    rewrite map_size_singleton. simpl.
    now rewrite (mapRange_singleton mapRange mapRange_perm).
  - intros Hsize. unfold node.determineOverallCode.
    destruct (size results) as [|[|n]] eqn:Hs; try lia. simpl.
    pose proof (existsb_mapRange_OK results) as Hex.
    destruct (existsb _ _).
    + split; split; try discriminate; try reflexivity.
      * intros _. now apply Hex.
      * intros Hnone. exfalso.
        destruct (proj1 Hex eq_refl) as (k & res & Hl & Hok). exact (Hnone k res Hl Hok).
    + split; split; try discriminate; try reflexivity.
      * intros Hsome. apply Hex in Hsome. discriminate.
      * intros _ k res Hl Hok.
        assert (false = true) by (apply Hex; eauto). discriminate.
  - intros mapRange' Hperm'. unfold node.determineOverallCode.
    destruct (size results) as [|[|n]] eqn:Hs; simpl.
    + reflexivity.
    + destruct (map_size_one_singleton results Hs) as (k & v & ->).
      rewrite (mapRange_singleton mapRange mapRange_perm).
      now rewrite (mapRange_singleton mapRange' Hperm').
    + erewrite (existsb_Permutation _ (mapRange' _ results) (mapRange _ results));
        [reflexivity|]. now rewrite Hperm', mapRange_perm.
Qed.

End OverallCode.

(** ** Wait-map keys and the responses the head stores *)

Section ResultKeys.

Import replica.

Variable peer_String : execute.PeerID → string.

Lemma append_nil_l (s : string) : "" +:+ s = s.
Proof. reflexivity. Qed.

Lemma append_cons_l (c : ascii) (r s : string) : String c r +:+ s = String c (r +:+ s).
Proof. reflexivity. Qed.

Lemma key_split (r1 r2 s1 s2 : string) :
  (∀ a b : string, s1 ≠ a +:+ "/" +:+ b) →
  (∀ a b : string, s2 ≠ a +:+ "/" +:+ b) →
  r1 +:+ "/" +:+ s1 = r2 +:+ "/" +:+ s2 → r1 = r2 ∧ s1 = s2.
Proof.
  intros H1 H2. revert r2.
  induction r1 as [|c r1 IH]; intros [|c' r2] Heq;
    rewrite ?append_cons_l, ?append_nil_l in Heq.
  - injection Heq as Heq. now split.
  - injection Heq as _ Heq. exfalso. exact (H1 r2 s2 Heq).
  - injection Heq as _ Heq. exfalso. symmetry in Heq. exact (H2 r1 s1 Heq).
  - injection Heq as -> Heq. destruct (IH r2 Heq) as [-> ->]. now split.
Qed.

(** X8. When the printed identities of two peers contain no "/" (they are
    base58 strings), the result keys of two (request, peer) pairs are equal
    only if the request identifiers are equal and the printed identities are
    equal. *)
Theorem executionResultKey_separates (r1 r2 : string) (p1 p2 : execute.PeerID) :
  (∀ a b : string, peer_String p1 ≠ a +:+ "/" +:+ b) →
  (∀ a b : string, peer_String p2 ≠ a +:+ "/" +:+ b) →
  (head.executionResultKey peer_String r1 p1 = head.executionResultKey peer_String r2 p2
   ↔ r1 = r2 ∧ peer_String p1 = peer_String p2)
  ∧ (node.executionResultKey peer_String r1 p1 = node.executionResultKey peer_String r2 p2
     ↔ r1 = r2 ∧ peer_String p1 = peer_String p2).
Proof.
  intros H1 H2. unfold head.executionResultKey, node.executionResultKey.
  split; (split; [apply key_split; assumption|now intros [-> ->]]).
Qed.



End ResultKeys.

(** ** The cluster registry over its life *)

Section ClusterLife.

Import errors replica.

Context {M : Type} {registry : syncmap.Map M consensusExecutor}.



(** X13. The only reply [createRaftCluster] and [createPBFTCluster] ever
    send carries the code OK. When the replica cannot be created they send
    nothing at all and leave the node as it was, returning the error
    wrapped; the cached results are never touched. This holds in package
    [worker], over any registry, and in package [node]. *)
Theorem createCluster_replies_only_OK (env : worker.Env) (w : worker.Worker M)
    (nenv : node.Env) (n : node.Node) (from : execute.PeerID) (fc : request.FormCluster) :
  let reply :=
    response.mkFormCluster (request.FormCluster_RequestID fc) codes.OK
      (request.FormCluster_Consensus fc) in
  let wr := worker.createRaftCluster env w from fc in
  let wp := worker.createPBFTCluster env w from fc in
  let nr := node.createRaftCluster nenv n from fc in
  let np := node.createPBFTCluster nenv n from fc in
  (worker.sent (fst wr) = worker.sent w ∨ worker.sent (fst wr) = (worker.sent w ++ [(from, reply)])%list)
  ∧ (worker.sent (fst wp) = worker.sent w ∨ worker.sent (fst wp) = (worker.sent w ++ [(from, reply)])%list)
  ∧ (node.sent (fst nr) = node.sent n ∨ node.sent (fst nr) = (node.sent n ++ [(from, reply)])%list)
  ∧ (node.sent (fst np) = node.sent n ∨ node.sent (fst np) = (node.sent n ++ [(from, reply)])%list)
  ∧ (∀ err, worker.raft_New env fc = inr err →
       wr = (w, Some (Errorf "could not create raft node: " err)))
  ∧ (∀ err, worker.pbft_NewReplica env fc = inr err →
       wp = (w, Some (Errorf "could not create PBFT node: " err)))
  ∧ (∀ err, node.raft_New nenv fc = inr err →
       nr = (n, Some (Errorf "could not create raft node: " err)))
  ∧ (∀ err, node.pbft_NewReplica nenv fc = inr err →
       np = (n, Some (Errorf "could not create PBFT node: " err)))
  ∧ worker.executeResponses (fst wr) = worker.executeResponses w
  ∧ worker.executeResponses (fst wp) = worker.executeResponses w
  ∧ node.executeResponses (fst nr) = node.executeResponses n
  ∧ node.executeResponses (fst np) = node.executeResponses n.
Proof.
  intros reply wr wp nr np.
  unfold wr, wp, nr, np, worker.createRaftCluster, worker.createPBFTCluster,
    node.createRaftCluster, node.createPBFTCluster, request.FormCluster_Response.
  fold reply.
  destruct (worker.raft_New env fc) as [rh1|e1];
    destruct (worker.pbft_NewReplica env fc) as [rh2|e2];
    destruct (node.raft_New nenv fc) as [rh3|e3];
    destruct (node.pbft_NewReplica nenv fc) as [rh4|e4];
    destruct (worker.Send env from reply); destruct (node.Send nenv from reply);
    simpl; repeat split; auto; try discriminate; intros ? [= <-]; reflexivity.
Qed.

(** X14. In package [node], forming a cluster and then leaving it, with a
    replica that shuts down, takes the request out of the registry and
    leaves every other entry as it was; a registry that did not know the
    request is back to what it was before the cluster was formed. *)
Theorem node_create_then_leave (nenv : node.Env) (n : node.Node) (from : execute.PeerID)
    (fc : request.FormCluster) (rh : consensusExecutor) :
  Shutdown rh = None →
  let requestID := request.FormCluster_RequestID fc in
  (node.raft_New nenv fc = inl rh →
   let n1 := fst (node.createRaftCluster nenv n from fc) in
   let n2 := node.leaveCluster n1 requestID in
   node.clusters n1 !! requestID = Some rh
   ∧ (∀ other, other ≠ requestID → node.clusters n1 !! other = node.clusters n !! other)
   ∧ snd n2 = None
   ∧ node.clusters (fst n2) = delete requestID (node.clusters n)
   ∧ (node.clusters n !! requestID = None → node.clusters (fst n2) = node.clusters n))
  ∧ (node.pbft_NewReplica nenv fc = inl rh →
     let n1 := fst (node.createPBFTCluster nenv n from fc) in
     let n2 := node.leaveCluster n1 requestID in
     node.clusters n1 !! requestID = Some rh
     ∧ (∀ other, other ≠ requestID → node.clusters n1 !! other = node.clusters n !! other)
     ∧ snd n2 = None
     ∧ node.clusters (fst n2) = delete requestID (node.clusters n)
     ∧ (node.clusters n !! requestID = None → node.clusters (fst n2) = node.clusters n)).
Proof.
  intros Hs requestID.
  assert (Hleave : ∀ n1 : node.Node,
    node.clusters n1 = <[requestID := rh]> (node.clusters n) →
    node.clusters n1 !! requestID = Some rh
    ∧ (∀ other, other ≠ requestID → node.clusters n1 !! other = node.clusters n !! other)
    ∧ snd (node.leaveCluster n1 requestID) = None
    ∧ node.clusters (fst (node.leaveCluster n1 requestID)) = delete requestID (node.clusters n)
    ∧ (node.clusters n !! requestID = None →
       node.clusters (fst (node.leaveCluster n1 requestID)) = node.clusters n)).
  { intros n1 Hc.
    assert (Hl : node.clusters n1 !! requestID = Some rh)
      by (rewrite Hc; apply lookup_insert_eq).
    split; [exact Hl|].
    split; [intros other Hne; rewrite Hc; now apply lookup_insert_ne|].
    unfold node.leaveCluster. rewrite Hl, Hs. simpl. rewrite Hc.
    split; [reflexivity|]. rewrite delete_insert_eq.
    split; [reflexivity|]. intros Hnone. now apply delete_id. }
  split; intros Hnew; cbv zeta; apply Hleave.
  - unfold node.createRaftCluster. rewrite Hnew. now destruct (node.Send _ _ _).
  - unfold node.createPBFTCluster. rewrite Hnew. now destruct (node.Send _ _ _).
Qed.

End ClusterLife.

(** ** The further properties at concrete inputs *)

Lemma sample_no_slash_p1 (a b : string) : sample.peer_String "p1" ≠ a +:+ "/" +:+ b.
Proof.
  intros Heq. unfold sample.peer_String in Heq.
  repeat (destruct a as [|? a]; simpl in Heq; [discriminate Heq|injection Heq as ? Heq]).
  destruct a; discriminate Heq.
Qed.

Lemma sample_no_slash_p2 (a b : string) : sample.peer_String "p2" ≠ a +:+ "/" +:+ b.
Proof.
  intros Heq. unfold sample.peer_String in Heq.
  repeat (destruct a as [|? a]; simpl in Heq; [discriminate Heq|injection Heq as ? Heq]).
  destruct a; discriminate Heq.
Qed.

(** The cluster of three cannot be formed: the code is Error, not Timeout,
    and no result is returned. *)
Lemma execute_failure_shape_witness :
  let refusal := errors.New "peer refused" in
  let env :=
    head.mkEnv (λ _, None) (λ _ _ _ _ _, (["p1"; "p2"; "p3"], None)) (λ _ _ _, Some refusal)
      (λ _, None) (λ _ _ _, None) (λ _ _, ∅) (λ _ _, ∅) (λ _ _, None) in
  let r := head.execute sample.defaultExecutionThreshold node.parseConsensusAlgorithm
             sample.mapRange (sample.headNode consensus.NoConsensus) env "req-1"
             (sample.request "raft" 0.5%float) "" in
  head.ret_err r
    = Some (errors.Errorf "could not form cluster (request: req-1): " refusal)
  ∧ head.ret_results r = ∅
  ∧ head.ret_code r = codes.Error
  ∧ head.ret_code r ≠ codes.Timeout.
Proof.
  intros refusal env r.
  assert (Herr : head.ret_err r
                 = Some (errors.Errorf "could not form cluster (request: req-1): " refusal))
    by reflexivity.
  split; [exact Herr|].
  destruct (execute_failure_shape sample.defaultExecutionThreshold
              node.parseConsensusAlgorithm sample.mapRange
              (sample.headNode consensus.NoConsensus) env "req-1"
              (sample.request "raft" 0.5%float) "" _ Herr)
    as (Hres & Hcode & Htimeout).
  split; [exact Hres|].
  assert (Hnt : head.ret_code r ≠ codes.Timeout).
  { intros Ht. apply Htimeout in Ht. destruct Ht as (e & He & _). discriminate He. }
  split; [|exact Hnt].
  destruct Hcode as [Ht|He]; [contradiction|exact He].
Defined.

(** Three peers out of three reply, two of them with the code Error, under
    the strictest threshold: the overall code is OK. *)
Lemma execute_all_replied_witness :
  let peers := ["p1"; "p2"; "p3"] in
  let results : execute.ResultMap :=
    <["p1" := sample.result codes.Error]>
      (<["p2" := sample.result codes.Error]> {["p3" := sample.result codes.OK]}) in
  let h := sample.headNode consensus.NoConsensus in
  let env := sample.env peers results in
  let req := sample.request "" 1%float in
  head.dispatched node.parseConsensusAlgorithm h env "req-1" req "" peers
  ∧ size results = length peers
  ∧ head.ret_code (head.execute sample.defaultExecutionThreshold node.parseConsensusAlgorithm
                     sample.mapRange h env "req-1" req "") = codes.OK.
Proof.
  intros peers results h env req.
  assert (H1 : head.consensusOf node.parseConsensusAlgorithm h req ≠ consensus.PBFT)
    by (vm_compute; discriminate).
  assert (H2 : head.dispatched node.parseConsensusAlgorithm h env "req-1" req "" peers)
    by (repeat split; intros; reflexivity).
  assert (H3 : size results = length peers) by (vm_compute; reflexivity).
  split; [exact H2|]. split; [exact H3|].
  exact (execute_all_replied sample.defaultExecutionThreshold node.parseConsensusAlgorithm
           sample.mapRange sample_default_in_range h env "req-1" req "" peers H1 H2
           ltac:(vm_compute; lia) ltac:(vm_compute; reflexivity) H3).
Defined.

(** A configured threshold of 7 is replaced by the default 0.5. *)
Lemma determineThreshold_range_witness :
  let req := sample.request "" 7%float in
  head.determineThreshold sample.defaultExecutionThreshold req = 0.5%float
  ∧ (0 <? head.determineThreshold sample.defaultExecutionThreshold req)%float = true
  ∧ (head.determineThreshold sample.defaultExecutionThreshold req <=? 1)%float = true.
Proof.
  intros req. split; [reflexivity|].
  destruct (determineThreshold_range sample.defaultExecutionThreshold
              sample_default_in_range req) as (Hpos & Hle & _).
  split; [exact Hpos|exact Hle].
Defined.

(** Three results of which one carries OK: the overall code is OK, in
    whatever order the map is enumerated. *)
Lemma determineOverallCode_by_content_witness :
  let failed := execute.Result_ (sample.result codes.Error) in
  let done := execute.Result_ (sample.result codes.OK) in
  let results : gmap string execute.Result :=
    <["p1" := failed]> (<["p2" := done]> {["p3" := failed]}) in
  (2 ≤ size results)%nat
  ∧ results !! "p2" = Some done
  ∧ node.determineOverallCode sample.mapRange results = codes.OK
  ∧ node.determineOverallCode (λ V m, reverse (map_to_list m)) results = codes.OK.
Proof.
  intros failed done results.
  assert (Hsize : (2 ≤ size results)%nat) by (vm_compute; lia).
  assert (Hl : results !! "p2" = Some done) by (vm_compute; reflexivity).
  split; [exact Hsize|]. split; [exact Hl|].
  destruct (determineOverallCode_by_content sample.mapRange sample_mapRange_perm results)
    as (_ & _ & Hmany & Horder).
  assert (Hok : node.determineOverallCode sample.mapRange results = codes.OK).
  { apply (Hmany Hsize). exists "p2", done. now split. }
  split; [exact Hok|].
  rewrite (Horder (λ V m, reverse (map_to_list m))); [exact Hok|].
  intros V m. apply reverse_Permutation.
Defined.

(** The keys of two peers for one request differ. *)
Lemma executionResultKey_separates_witness :
  head.executionResultKey sample.peer_String "req-1" "p1"
  ≠ head.executionResultKey sample.peer_String "req-1" "p2".
Proof.
  intros Heq.
  destruct (executionResultKey_separates sample.peer_String "req-1" "req-1" "p1" "p2"
              sample_no_slash_p1 sample_no_slash_p2) as [Hhead _].
  apply Hhead in Heq. destruct Heq as [_ Hp]. discriminate Hp.
Defined.



(** A node that knows no cluster forms the raft cluster of "req-1" and
    leaves it: its registry is empty again. *)
Lemma node_create_then_leave_witness :
  let fc := sample.formCluster "req-1" consensus.Raft in
  let n := node.mkNode ∅ waitmap.New [] in
  let n1 := fst (node.createRaftCluster (sample.node_env (sample.replica_ok 1)) n "head" fc) in
  replica.Shutdown (sample.replica_ok 1) = None
  ∧ node.clusters n1 !! "req-1" = Some (sample.replica_ok 1)
  ∧ node.clusters (fst (node.leaveCluster n1 "req-1")) = ∅.
Proof.
  intros fc n n1.
  split; [reflexivity|].
  destruct (node_create_then_leave (sample.node_env (sample.replica_ok 1)) n "head" fc
              (sample.replica_ok 1) eq_refl) as [Hraft _].
  destruct (Hraft eq_refl) as (Hin & _ & _ & _ & Hback).
  split; [exact Hin|]. apply Hback. reflexivity.
Defined.
